(** * FarmTech smart irrigation controller

    A shallow embedding of [src/Fase 4/main.cpp], the Arduino sketch of the
    irrigation controller, and the properties of its decision policy.

    The sketch keeps its sensor values and the pump flag in global
    variables and every function is a [void f()] over them, so the
    embedding passes one record of the globals ([Estado]) through each
    function.  Soil pH and moisture are C [float]s: they are modelled as
    IEEE 754 binary32 values with the comparison of the Standard Library's
    [SpecFloat], which is the comparison the hardware performs (a NaN
    compares false with everything).  Text sent to the serial port is kept
    as the sequence of [print] calls, before the Arduino core formats the
    numbers. *)

From Stdlib Require Import ZArith NArith Bool String List Lia.
From Stdlib Require Import Floats.SpecFloat.
From stdpp Require Import base gmap strings.
Import ListNotations.

Open Scope string_scope.
Open Scope list_scope.
Open Scope Z_scope.

(** ** Single-precision floats *)

Module F32.

Definition prec : Z := 24.
Definition emax : Z := 128.

(** A C [float]: sign, 24-bit mantissa and exponent, or zero, infinity,
    NaN. *)
Definition float := spec_float.

(** The values a 32-bit float can hold.  The properties below are proved
    for every [spec_float], hence for every valid one. *)
Definition valid (x : float) : bool := valid_binary prec emax x.

(** C's [x < y], [x > y], [x <= y], [x == y] and [isnan(x)]. *)
Definition ltb (x y : float) : bool := SFltb x y.
Definition gtb (x y : float) : bool := SFltb y x.
Definition leb (x y : float) : bool := SFleb x y.
Definition eqb (x y : float) : bool := SFeqb x y.
Definition isnan (x : float) : bool :=
  match x with S754_nan => true | _ => false end.

(** Conversion of a [double] to [float] (round to nearest even), as done
    when a [double] literal initialises or is assigned to a [float]. *)
Definition of_double (x : spec_float) : float :=
  match x with
  | S754_finite s m e => binary_round prec emax s m e
  | _ => x
  end.

(** The decimal literal [m / 10^k] (as in [7.2] = [lit 72 1]): a
    correctly rounded [double], then narrowed to [float]. *)
Definition lit (m : Z) (k : nat) : float :=
  of_double
    (SFdiv 53 1024
       (binary_normalize 53 1024 m 0 false)
       (binary_normalize 53 1024 (10 ^ Z.of_nat k) 0 false)).

Definition nan : float := S754_nan.

End F32.

(** ** Constants of the sketch (lines 9-12 and 32-39) *)

Definition PIN_PH_LDR : Z := 36.
Definition PIN_UMIDADE : Z := 34.
Definition PIN_RELE : Z := 2.
Definition PIN_LED : Z := 2.

Definition LIMITE_UMIDADE_BAIXA : F32.float := F32.lit 300 1.
Definition LIMITE_UMIDADE_ALTA : F32.float := F32.lit 700 1.
Definition LIMITE_PH_BAIXO : F32.float := F32.lit 60 1.
Definition LIMITE_PH_ALTO : F32.float := F32.lit 80 1.

Definition INTERVALO_LEITURA : Z := 3000.

(** ** [unsigned long] arithmetic (32 bits, wraps around) *)

Definition ULONG_MOD : Z := 2 ^ 32.
Definition ulong_sub (a b : Z) : Z := (a - b) mod ULONG_MOD.
Definition ulong_succ (a : Z) : Z := (a + 1) mod ULONG_MOD.

(** ** Text and the serial port

    A piece of text is the sequence of things printed; numbers stay as
    numbers, tagged with the routine of the Arduino core that formats
    them. *)

Inductive Chunk : Type :=
| Lit (s : string)                                (* a string literal *)
| PrintULong (n : Z)                              (* print(unsigned long) *)
| PrintInt (z : Z)                                (* print(int) *)
| PrintFloat (x : F32.float) (digits : nat)       (* print(float, digits) *)
| StringFloat (x : F32.float) (decimals : nat).   (* String(float, decimals) *)

Definition Text : Type := list Chunk.

Definition txt (s : string) : Text := [Lit s].

(** The formatting routines of the Arduino core, which is not part of the
    sketch: any implementation of them turns a [Text] into characters. *)
Record ArduinoCore : Type := {
  fmt_ulong : Z -> string;
  fmt_int : Z -> string;
  fmt_print_float : F32.float -> nat -> string;
  fmt_string_float : F32.float -> nat -> string
}.

Definition render_chunk (core : ArduinoCore) (c : Chunk) : string :=
  match c with
  | Lit s => s
  | PrintULong n => fmt_ulong core n
  | PrintInt z => fmt_int core z
  | PrintFloat x d => fmt_print_float core x d
  | StringFloat x d => fmt_string_float core x d
  end.

Fixpoint render (core : ArduinoCore) (t : Text) : string :=
  match t with
  | [] => EmptyString
  | c :: t' => render_chunk core c +:+ render core t'
  end.

(** The serial output: the lines already terminated by a [println], oldest
    first, and the line being written. *)
Record SerialPort : Type := {
  linhas : list Text;
  parcial : Text
}.

Definition port_print (t : Text) (p : SerialPort) : SerialPort :=
  {| linhas := linhas p; parcial := parcial p ++ t |}.

Definition port_println (t : Text) (p : SerialPort) : SerialPort :=
  {| linhas := linhas p ++ [parcial p ++ t]; parcial := [] |}.

(** ** Pins *)

Inductive Nivel : Type := LOW | HIGH.
Inductive Modo : Type := INPUT | OUTPUT.

(** ** The global variables (lines 25-29 and 38-41) and the hardware the
    sketch writes to *)

Record Estado : Type := {
  fosforo_presente : bool;
  potassio_presente : bool;
  valor_ph : F32.float;
  umidade_solo : F32.float;
  bomba_ativa : bool;
  ultima_leitura : Z;
  contador_medicoes : Z;
  cenario_atual : Z;
  modos : gmap Z Modo;
  pinos : gmap Z Nivel;
  serial : SerialPort
}.

Definition set_fosforo_presente (v : bool) (s : Estado) : Estado :=
  {| fosforo_presente := v; potassio_presente := potassio_presente s;
     valor_ph := valor_ph s; umidade_solo := umidade_solo s;
     bomba_ativa := bomba_ativa s; ultima_leitura := ultima_leitura s;
     contador_medicoes := contador_medicoes s;
     cenario_atual := cenario_atual s; modos := modos s;
     pinos := pinos s; serial := serial s |}.

Definition set_potassio_presente (v : bool) (s : Estado) : Estado :=
  {| fosforo_presente := fosforo_presente s; potassio_presente := v;
     valor_ph := valor_ph s; umidade_solo := umidade_solo s;
     bomba_ativa := bomba_ativa s; ultima_leitura := ultima_leitura s;
     contador_medicoes := contador_medicoes s;
     cenario_atual := cenario_atual s; modos := modos s;
     pinos := pinos s; serial := serial s |}.

Definition set_valor_ph (v : F32.float) (s : Estado) : Estado :=
  {| fosforo_presente := fosforo_presente s;
     potassio_presente := potassio_presente s;
     valor_ph := v; umidade_solo := umidade_solo s;
     bomba_ativa := bomba_ativa s; ultima_leitura := ultima_leitura s;
     contador_medicoes := contador_medicoes s;
     cenario_atual := cenario_atual s; modos := modos s;
     pinos := pinos s; serial := serial s |}.

Definition set_umidade_solo (v : F32.float) (s : Estado) : Estado :=
  {| fosforo_presente := fosforo_presente s;
     potassio_presente := potassio_presente s;
     valor_ph := valor_ph s; umidade_solo := v;
     bomba_ativa := bomba_ativa s; ultima_leitura := ultima_leitura s;
     contador_medicoes := contador_medicoes s;
     cenario_atual := cenario_atual s; modos := modos s;
     pinos := pinos s; serial := serial s |}.

Definition set_bomba_ativa (v : bool) (s : Estado) : Estado :=
  {| fosforo_presente := fosforo_presente s;
     potassio_presente := potassio_presente s;
     valor_ph := valor_ph s; umidade_solo := umidade_solo s;
     bomba_ativa := v; ultima_leitura := ultima_leitura s;
     contador_medicoes := contador_medicoes s;
     cenario_atual := cenario_atual s; modos := modos s;
     pinos := pinos s; serial := serial s |}.

Definition set_ultima_leitura (v : Z) (s : Estado) : Estado :=
  {| fosforo_presente := fosforo_presente s;
     potassio_presente := potassio_presente s;
     valor_ph := valor_ph s; umidade_solo := umidade_solo s;
     bomba_ativa := bomba_ativa s; ultima_leitura := v;
     contador_medicoes := contador_medicoes s;
     cenario_atual := cenario_atual s; modos := modos s;
     pinos := pinos s; serial := serial s |}.

Definition set_contador_medicoes (v : Z) (s : Estado) : Estado :=
  {| fosforo_presente := fosforo_presente s;
     potassio_presente := potassio_presente s;
     valor_ph := valor_ph s; umidade_solo := umidade_solo s;
     bomba_ativa := bomba_ativa s; ultima_leitura := ultima_leitura s;
     contador_medicoes := v;
     cenario_atual := cenario_atual s; modos := modos s;
     pinos := pinos s; serial := serial s |}.

Definition set_cenario_atual (v : Z) (s : Estado) : Estado :=
  {| fosforo_presente := fosforo_presente s;
     potassio_presente := potassio_presente s;
     valor_ph := valor_ph s; umidade_solo := umidade_solo s;
     bomba_ativa := bomba_ativa s; ultima_leitura := ultima_leitura s;
     contador_medicoes := contador_medicoes s;
     cenario_atual := v; modos := modos s;
     pinos := pinos s; serial := serial s |}.

Definition set_modos (v : gmap Z Modo) (s : Estado) : Estado :=
  {| fosforo_presente := fosforo_presente s;
     potassio_presente := potassio_presente s;
     valor_ph := valor_ph s; umidade_solo := umidade_solo s;
     bomba_ativa := bomba_ativa s; ultima_leitura := ultima_leitura s;
     contador_medicoes := contador_medicoes s;
     cenario_atual := cenario_atual s; modos := v;
     pinos := pinos s; serial := serial s |}.

Definition set_pinos (v : gmap Z Nivel) (s : Estado) : Estado :=
  {| fosforo_presente := fosforo_presente s;
     potassio_presente := potassio_presente s;
     valor_ph := valor_ph s; umidade_solo := umidade_solo s;
     bomba_ativa := bomba_ativa s; ultima_leitura := ultima_leitura s;
     contador_medicoes := contador_medicoes s;
     cenario_atual := cenario_atual s; modos := modos s;
     pinos := v; serial := serial s |}.

Definition set_serial (v : SerialPort) (s : Estado) : Estado :=
  {| fosforo_presente := fosforo_presente s;
     potassio_presente := potassio_presente s;
     valor_ph := valor_ph s; umidade_solo := umidade_solo s;
     bomba_ativa := bomba_ativa s; ultima_leitura := ultima_leitura s;
     contador_medicoes := contador_medicoes s;
     cenario_atual := cenario_atual s; modos := modos s;
     pinos := pinos s; serial := v |}.

(** The calls of the Arduino API the sketch makes. *)

Definition Serial_print (t : Text) (s : Estado) : Estado :=
  set_serial (port_print t (serial s)) s.

Definition Serial_println (t : Text) (s : Estado) : Estado :=
  set_serial (port_println t (serial s)) s.

Definition pinMode (pin : Z) (m : Modo) (s : Estado) : Estado :=
  set_modos (<[pin := m]> (modos s)) s.

Definition digitalWrite (pin : Z) (v : Nivel) (s : Estado) : Estado :=
  set_pinos (<[pin := v]> (pinos s)) s.

(** What one pass of [loop] reads from the outside world: the clock, the
    two values [lerSensores] derives from the analog pins (lines 153-158)
    and the humidity of the DHT22 (line 171). *)
Record Entradas : Type := {
  millis : Z;
  ph_ldr : F32.float;
  umidade_pot : F32.float;
  umidade_dht : F32.float
}.

(** The globals as initialised at lines 25-41, with nothing printed and no
    pin configured. *)
Definition estado_inicial : Estado :=
  {| fosforo_presente := false; potassio_presente := false;
     valor_ph := F32.lit 0 1; umidade_solo := F32.lit 0 1;
     bomba_ativa := false; ultima_leitura := 0;
     contador_medicoes := 0; cenario_atual := 0;
     modos := ∅; pinos := ∅;
     serial := {| linhas := []; parcial := [] |} |}.

(** ** The functions of the sketch *)

(** [setup] (lines 43-68).  [Serial.begin], [delay] and [dht.begin] leave
    the modelled state as it is; [agora] is what [millis()] returns at
    line 67. *)
Definition setup (agora : Z) (s : Estado) : Estado :=
  let s := Serial_println
             (txt "=== Sistema de Irrigação Inteligente - FarmTech Solutions ===") s in
  let s := Serial_println (txt "VERSÃO DEMONSTRAÇÃO AUTOMÁTICA") s in
  let s := Serial_println
             (txt "Simulando diferentes cenários automaticamente...") s in
  let s := pinMode PIN_RELE OUTPUT s in
  let s := pinMode PIN_LED OUTPUT s in
  let s := digitalWrite PIN_RELE LOW s in
  let s := digitalWrite PIN_LED LOW s in
  let s := set_bomba_ativa false s in
  let s := Serial_println (txt "Sistema inicializado!") s in
  let s := Serial_println (txt "Demonstrando 6 cenários diferentes...") s in
  let s := Serial_println (txt "=====================================") s in
  set_ultima_leitura agora s.

(** One [case] of the [switch] of [simularCenario]: the title is printed and
    the four sensor globals are assigned, in the order of the source. *)
Definition cenario (titulo : string) (fosforo potassio : bool)
    (umidade ph : F32.float) (s : Estado) : Estado :=
  let s := Serial_println (txt titulo) s in
  let s := set_fosforo_presente fosforo s in
  let s := set_potassio_presente potassio s in
  let s := set_umidade_solo umidade s in
  set_valor_ph ph s.

(** [simularCenario] (lines 95-149).  The [switch] has no [default]: a
    value of [cenario_atual] outside 0..5 assigns nothing. *)
Definition simularCenario (s : Estado) : Estado :=
  let s := Serial_print (txt ">>> CENÁRIO ") s in
  let s := Serial_print [PrintInt (cenario_atual s + 1)] s in
  let s := Serial_print (txt "/6: ") s in
  match cenario_atual s with
  | 0 => cenario "SEM NUTRIENTES + UMIDADE NORMAL"
           false false (F32.lit 450 1) (F32.lit 72 1) s
  | 1 => cenario "APENAS FÓSFORO + UMIDADE BAIXA"
           true false (F32.lit 250 1) (F32.lit 70 1) s
  | 2 => cenario "APENAS POTÁSSIO + UMIDADE ALTA"
           false true (F32.lit 750 1) (F32.lit 68 1) s
  | 3 => cenario "AMBOS NUTRIENTES + pH ÁCIDO"
           true true (F32.lit 400 1) (F32.lit 55 1) s
  | 4 => cenario "AMBOS NUTRIENTES + pH ALCALINO"
           true true (F32.lit 500 1) (F32.lit 85 1) s
  | 5 => cenario "CONDIÇÕES IDEAIS"
           true true (F32.lit 550 1) (F32.lit 70 1) s
  | _ => s
  end.

(** [lerSensores] (lines 151-177): it only reports the physical sensors and
    assigns no global. *)
Definition lerSensores (e : Entradas) (s : Estado) : Estado :=
  let s := Serial_print (txt "Sensores físicos - pH LDR: ") s in
  let s := Serial_print [PrintFloat (ph_ldr e) 1] s in
  let s := Serial_print (txt " | Umidade POT: ") s in
  let s := Serial_print [PrintFloat (umidade_pot e) 1] s in
  let s := Serial_println (txt "%") s in
  if negb (F32.isnan (umidade_dht e)) then
    let s := Serial_print (txt "DHT22 funcionando - Umidade: ") s in
    let s := Serial_print [PrintFloat (umidade_dht e) 1] s in
    Serial_println (txt "%") s
  else s.

(** The two locals of [analisarDadosEControlarBomba]: [deve_ativar_bomba]
    and [motivo_decisao]. *)
Definition Locais : Type := (bool * Text)%type.

(** Lines 184-192: control by moisture. *)
Definition regra_umidade (s : Estado) (l : Locais) : Locais :=
  let '(deve_ativar_bomba, motivo_decisao) := l in
  if F32.ltb (umidade_solo s) LIMITE_UMIDADE_BAIXA then
    (true, txt "Umidade baixa (" ++ [StringFloat (umidade_solo s) 1] ++ txt "%)")
  else if F32.gtb (umidade_solo s) LIMITE_UMIDADE_ALTA then
    (false, txt "Umidade alta (" ++ [StringFloat (umidade_solo s) 1] ++ txt "%)")
  else
    (deve_ativar_bomba,
     txt "Umidade normal (" ++ [StringFloat (umidade_solo s) 1] ++ txt "%)").

(** Lines 195-201: a pH outside the ideal band blocks irrigation. *)
Definition regra_ph (s : Estado) (l : Locais) : Locais :=
  let '(deve_ativar_bomba, motivo_decisao) := l in
  if F32.ltb (valor_ph s) LIMITE_PH_BAIXO then
    (false, txt "pH muito ácido (" ++ [StringFloat (valor_ph s) 1]
              ++ txt ") - irrigação bloqueada")
  else if F32.gtb (valor_ph s) LIMITE_PH_ALTO then
    (false, txt "pH muito alcalino (" ++ [StringFloat (valor_ph s) 1]
              ++ txt ") - irrigação bloqueada")
  else (deve_ativar_bomba, motivo_decisao).

(** Lines 204-207: no nutrient at all forces irrigation. *)
Definition regra_sem_nutrientes (s : Estado) (l : Locais) : Locais :=
  let '(deve_ativar_bomba, motivo_decisao) := l in
  if negb (fosforo_presente s) && negb (potassio_presente s) then
    (true, txt "SEM NUTRIENTES - Irrigação forçada para preparar solo")
  else (deve_ativar_bomba, motivo_decisao).

(** Lines 210-213: a single nutrient turns the pump on as well. *)
Definition regra_nutriente_parcial (s : Estado) (l : Locais) : Locais :=
  let '(deve_ativar_bomba, motivo_decisao) := l in
  if (fosforo_presente s && negb (potassio_presente s))
     || (negb (fosforo_presente s) && potassio_presente s) then
    (true, txt "Nutriente parcial - Irrigação para balanceamento")
  else (deve_ativar_bomba, motivo_decisao).

(** Lines 180-213: the locals start as [false] and the empty string and
    the four rules reassign them in sequence. *)
Definition decisao (s : Estado) : Locais :=
  let l : Locais := (false, []) in
  let l := regra_umidade s l in
  let l := regra_ph s l in
  let l := regra_sem_nutrientes s l in
  regra_nutriente_parcial s l.

Definition nivel_de (b : bool) : Nivel := if b then HIGH else LOW.

(** [analisarDadosEControlarBomba] (lines 179-236). *)
Definition analisarDadosEControlarBomba (s : Estado) : Estado :=
  let '(deve_ativar_bomba, motivo_decisao) := decisao s in
  let s := set_bomba_ativa deve_ativar_bomba s in
  let s := digitalWrite PIN_RELE (nivel_de (bomba_ativa s)) s in
  let s := digitalWrite PIN_LED (nivel_de (bomba_ativa s)) s in
  let s := Serial_println (txt "=== ANÁLISE DOS SENSORES ===") s in
  let s := Serial_print (txt "Fósforo: ") s in
  let s := Serial_println
             (txt (if fosforo_presente s then "PRESENTE" else "AUSENTE")) s in
  let s := Serial_print (txt "Potássio: ") s in
  let s := Serial_println
             (txt (if potassio_presente s then "PRESENTE" else "AUSENTE")) s in
  let s := Serial_print (txt "pH: ") s in
  let s := Serial_println [PrintFloat (valor_ph s) 2] s in
  let s := Serial_print (txt "Umidade: ") s in
  let s := Serial_print [PrintFloat (umidade_solo s) 1] s in
  let s := Serial_println (txt "%") s in
  let s := Serial_print (txt "BOMBA: ") s in
  let s := Serial_println
             (txt (if bomba_ativa s then "LIGADA ⚡" else "DESLIGADA")) s in
  let s := Serial_print (txt "Motivo: ") s in
  let s := Serial_println motivo_decisao s in
  Serial_println (txt "============================") s.

(** [exibirDadosCSV] (lines 238-251). *)
Definition exibirDadosCSV (s : Estado) : Estado :=
  let s := Serial_print [PrintULong (contador_medicoes s)] s in
  let s := Serial_print (txt ",") s in
  let s := Serial_print (txt (if fosforo_presente s then "1" else "0")) s in
  let s := Serial_print (txt ",") s in
  let s := Serial_print (txt (if potassio_presente s then "1" else "0")) s in
  let s := Serial_print (txt ",") s in
  let s := Serial_print [PrintFloat (valor_ph s) 2] s in
  let s := Serial_print (txt ",") s in
  let s := Serial_print [PrintFloat (umidade_solo s) 1] s in
  let s := Serial_print (txt ",") s in
  Serial_println (txt (if bomba_ativa s then "1" else "0")) s.

(** The test of line 72: has the reading interval elapsed? *)
Definition intervalo_decorrido (e : Entradas) (s : Estado) : bool :=
  INTERVALO_LEITURA <=? ulong_sub (millis e) (ultima_leitura s).

(** [loop] (lines 70-93).  [%] on [int] truncates towards zero. *)
Definition loop (e : Entradas) (s : Estado) : Estado :=
  let tempo_atual := millis e in
  if intervalo_decorrido e s then
    let s := set_ultima_leitura tempo_atual s in
    let s := set_contador_medicoes (ulong_succ (contador_medicoes s)) s in
    let s := simularCenario s in
    let s := lerSensores e s in
    let s := analisarDadosEControlarBomba s in
    let s := exibirDadosCSV s in
    let s := set_cenario_atual (Z.rem (cenario_atual s + 1) 6) s in
    Serial_println [] s
  else s.

(** The sketch from power-on: [setup] once, then [loop] once per input. *)
Definition executar (agora : Z) (es : list Entradas) : Estado :=
  fold_left (fun s e => loop e s) es (setup agora estado_inicial).

(** ** The vocabulary of the specification

    The specification speaks of a reading, of a decision and of a closed
    set of reason codes; the sketch has the four sensor globals, the pump
    flag and a message.  [mensagem] gives, for each reason code, the message
    the sketch builds for it. *)

Record Leitura : Type := {
  phosphorusPresent : bool;
  potassiumPresent : bool;
  pH : F32.float;
  moisturePercent : F32.float
}.

Definition leitura_de (s : Estado) : Leitura :=
  {| phosphorusPresent := fosforo_presente s;
     potassiumPresent := potassio_presente s;
     pH := valor_ph s;
     moisturePercent := umidade_solo s |}.

Inductive ReasonCode : Type :=
| MOISTURE_LOW
| MOISTURE_HIGH
| MOISTURE_NORMAL
| PH_TOO_ACIDIC
| PH_TOO_ALKALINE
| NO_NUTRIENTS_FORCE_IRRIGATION
| PARTIAL_NUTRIENT_BALANCING.

Definition mensagem (c : ReasonCode) (s : Estado) : Text :=
  match c with
  | MOISTURE_LOW =>
      txt "Umidade baixa (" ++ [StringFloat (umidade_solo s) 1] ++ txt "%)"
  | MOISTURE_HIGH =>
      txt "Umidade alta (" ++ [StringFloat (umidade_solo s) 1] ++ txt "%)"
  | MOISTURE_NORMAL =>
      txt "Umidade normal (" ++ [StringFloat (umidade_solo s) 1] ++ txt "%)"
  | PH_TOO_ACIDIC =>
      txt "pH muito ácido (" ++ [StringFloat (valor_ph s) 1]
        ++ txt ") - irrigação bloqueada"
  | PH_TOO_ALKALINE =>
      txt "pH muito alcalino (" ++ [StringFloat (valor_ph s) 1]
        ++ txt ") - irrigação bloqueada"
  | NO_NUTRIENTS_FORCE_IRRIGATION =>
      txt "SEM NUTRIENTES - Irrigação forçada para preparar solo"
  | PARTIAL_NUTRIENT_BALANCING =>
      txt "Nutriente parcial - Irrigação para balanceamento"
  end.

Definition bit (b : bool) : string := if b then "1" else "0".

(** The record line as the specification lays it out (section 6): cycle
    index, the two nutrient flags, pH with 2 decimals, moisture with 1
    decimal, pump flag, separated by commas. *)
Definition registro_csv (cycleIndex : Z) (r : Leitura) (pumpOn : bool) : Text :=
  [PrintULong cycleIndex; Lit ",";
   Lit (bit (phosphorusPresent r)); Lit ",";
   Lit (bit (potassiumPresent r)); Lit ",";
   PrintFloat (pH r) 2; Lit ",";
   PrintFloat (moisturePercent r) 1; Lit ",";
   Lit (bit pumpOn)].

(** The state in which [loop] calls [simularCenario] once the interval has
    elapsed (lines 73-74 done), and the state that call leaves: the
    reading of the cycle. *)
Definition inicio_do_ciclo (e : Entradas) (s : Estado) : Estado :=
  set_contador_medicoes (ulong_succ (contador_medicoes s))
    (set_ultima_leitura (millis e) s).

Definition leitura_do_ciclo (e : Entradas) (s : Estado) : Estado :=
  simularCenario (inicio_do_ciclo e s).

(** Some states to evaluate the sketch on. *)

Definition estado_com (f k : bool) (ph u : F32.float) (bomba : bool) : Estado :=
  set_bomba_ativa bomba
    (set_valor_ph ph
       (set_umidade_solo u
          (set_potassio_presente k
             (set_fosforo_presente f estado_inicial)))).

(** The state right after [simularCenario] has loaded scenario [n]. *)
Definition no_cenario (n : Z) : Estado :=
  simularCenario (set_cenario_atual n estado_inicial).

(** Both nutrients, dry soil (25.0), acid pH (5.5), pump left on. *)
Definition s_acido_seco : Estado :=
  estado_com true true (F32.lit 55 1) (F32.lit 250 1) true.

(** No nutrient, soaked soil (90.0), alkaline pH (9.5). *)
Definition s_sem_nutrientes : Estado :=
  estado_com false false (F32.lit 95 1) (F32.lit 900 1) false.

(** Potassium only, wet soil (80.0), acid pH (4.5). *)
Definition s_so_potassio : Estado :=
  estado_com false true (F32.lit 45 1) (F32.lit 800 1) false.

(** Both nutrients, dry soil (25.0), neutral pH (7.0). *)
Definition s_seco : Estado :=
  estado_com true true (F32.lit 70 1) (F32.lit 250 1) false.

(** Both nutrients, moisture 55.0, pH 7.0, pump left on. *)
Definition s_ideal : Estado :=
  estado_com true true (F32.lit 70 1) (F32.lit 550 1) true.

(** Both nutrients, moisture exactly 30.0, pH exactly 6.0, pump left on. *)
Definition s_limiar : Estado :=
  estado_com true true (F32.lit 60 1) (F32.lit 300 1) true.

(** Both nutrients, dry soil (25.0), and a pH that is not a number. *)
Definition s_ph_nan : Estado :=
  estado_com true true F32.nan (F32.lit 250 1) false.

Definition entradas_demo (t : Z) : Entradas :=
  {| millis := t; ph_ldr := F32.lit 70 1; umidade_pot := F32.lit 500 1;
     umidade_dht := F32.nan |}.

(** ** Reading the serial log back

    A record line is the only line the sketch starts with an
    [unsigned long]; [indices] gives the cycle numbers of the record lines
    of a log, in order. *)
Definition indice (l : Text) : list Z :=
  match l with
  | PrintULong n :: _ => [n]
  | _ => []
  end.

Definition indices (ls : list Text) : list Z := flat_map indice ls.

(** The numbers 1, 2, ..., n as an [unsigned long] counter shows them. *)
Definition numeracao (n : nat) : list Z :=
  map (fun k => Z.of_nat k mod ULONG_MOD) (seq 1 n).

(** What holds of the state between two passes of [loop], from [setup] on:
    the scenario index is one of the six cases of the [switch], no line is
    left unterminated, pin 2 is an output and carries the pump flag, no
    other pin has been touched, and the record lines printed so far are
    numbered by the measurement counter. *)
Definition estado_regular (s : Estado) : Prop :=
  0 <= cenario_atual s < 6
  /\ parcial (serial s) = []
  /\ modos s = {[PIN_RELE := OUTPUT]}
  /\ pinos s = {[PIN_RELE := nivel_de (bomba_ativa s)]}
  /\ exists n : nat,
       contador_medicoes s = Z.of_nat n mod ULONG_MOD
       /\ indices (linhas (serial s)) = numeracao n.

(** Does the text [t] start with the characters of [p]? *)
Fixpoint comeca_com (p t : string) : bool :=
  match p with
  | EmptyString => true
  | String a p' =>
      match t with
      | EmptyString => false
      | String b t' => Ascii.eqb a b && comeca_com p' t'
      end
  end.

(** Reading the reason back from a line of the log: each message of the
    sketch is recognised by the literal text it starts with. *)
Definition motivo_do_texto (t : string) : option ReasonCode :=
  if comeca_com "Umidade baixa (" t then Some MOISTURE_LOW
  else if comeca_com "Umidade alta (" t then Some MOISTURE_HIGH
  else if comeca_com "Umidade normal (" t then Some MOISTURE_NORMAL
  else if comeca_com "pH muito ácido (" t then Some PH_TOO_ACIDIC
  else if comeca_com "pH muito alcalino (" t then Some PH_TOO_ALKALINE
  else if comeca_com "SEM NUTRIENTES - " t
       then Some NO_NUTRIENTS_FORCE_IRRIGATION
  else if comeca_com "Nutriente parcial - " t
       then Some PARTIAL_NUTRIENT_BALANCING
  else None.

(** Both nutrients, dry soil (25.0), alkaline pH (8.5), pump left on. *)
Definition s_alcalino_seco : Estado :=
  estado_com true true (F32.lit 85 1) (F32.lit 250 1) true.

(** Both nutrients, soaked soil (90.0), neutral pH (7.0), pump left on. *)
Definition s_encharcado : Estado :=
  estado_com true true (F32.lit 70 1) (F32.lit 900 1) true.

(** A line of the log is coherent when it is no record line, or it is the
    record of one of the six scenarios with, as its pump field, the
    decision the policy takes on the reading it shows. *)
Definition linha_coerente (l : Text) : Prop :=
  indice l = []
  \/ exists (n k : Z),
       0 <= k < 6
       /\ l = registro_csv n (leitura_de (no_cenario k))
                (fst (decisao (no_cenario k))).

(** The pump flag the demonstration reaches in each scenario. *)
Definition bomba_no_cenario (n : Z) : bool := n <? 3.

(** A state that begins a pass of [loop] 1000 ms before the clock wraps. *)
Definition s_perto_do_estouro : Estado :=
  set_ultima_leitura (ULONG_MOD - 1000) (setup 0 estado_inicial).

(** * Properties *)

(** ** Facts on the comparison of floats *)

Lemma SFcompare_antisym (x y : spec_float) :
  SFcompare y x = option_map CompOpp (SFcompare x y).
Proof.
  destruct x as [sx|sx| |sx mx ex], y as [sy|sy| |sy my ey]; simpl;
    try reflexivity;
    try (destruct sx; reflexivity);
    try (destruct sy; reflexivity);
    try (destruct sx, sy; reflexivity).
  pose proof (Pos.compare_cont_antisym mx my Eq) as Hm. simpl in Hm.
  destruct sx, sy; simpl; try reflexivity;
    rewrite (Z.compare_antisym ex ey);
    destruct (ex ?= ey); simpl; try reflexivity;
    rewrite <- Hm; try reflexivity.
Qed.

(** [x <= y] excludes [x > y]. *)
Lemma leb_not_gtb (x y : F32.float) :
  F32.leb x y = true -> F32.gtb x y = false.
Proof.
  unfold F32.leb, F32.gtb, SFleb, SFltb.
  rewrite (SFcompare_antisym x y).
  destruct (SFcompare x y) as [[ | | ]|]; simpl; congruence.
Qed.

(** [y <= x] excludes [x < y]. *)
Lemma leb_not_ltb (x y : F32.float) :
  F32.leb y x = true -> F32.ltb x y = false.
Proof. exact (leb_not_gtb y x). Qed.

(** [x < y] excludes [x > y]. *)
Lemma ltb_not_gtb (x y : F32.float) :
  F32.ltb x y = true -> F32.gtb x y = false.
Proof.
  unfold F32.ltb, F32.gtb, SFltb.
  rewrite (SFcompare_antisym x y).
  destruct (SFcompare x y) as [[ | | ]|]; simpl; congruence.
Qed.

(** Away from NaN the order is total: [x < y] fails exactly when [y <= x]. *)
Lemma ltb_false_iff_leb (x y : F32.float) :
  F32.isnan x = false -> F32.isnan y = false ->
  (F32.ltb x y = false <-> F32.leb y x = true).
Proof.
  intros Hx Hy. unfold F32.ltb, F32.leb, SFltb, SFleb.
  rewrite (SFcompare_antisym x y).
  destruct x as [sx|sx| |sx mx ex], y as [sy|sy| |sy my ey];
    try discriminate Hx; try discriminate Hy;
    destruct (SFcompare _ _) as [[ | | ]|] eqn:E; simpl;
    try (split; congruence); simpl in E;
    try discriminate E; destruct sx; discriminate E.
Qed.

(** A NaN is neither below nor above nor equal to anything. *)
Lemma nan_compares_false (y : F32.float) :
  F32.ltb F32.nan y = false /\ F32.gtb F32.nan y = false
  /\ F32.leb F32.nan y = false /\ F32.leb y F32.nan = false.
Proof. destruct y; repeat split; reflexivity. Qed.

(** C's [==] against a finite constant pins the value down. *)
Lemma eqb_finite_eq (x : F32.float) (sg : bool) (m : positive) (e : Z) :
  F32.eqb x (S754_finite sg m e) = true -> x = S754_finite sg m e.
Proof.
  unfold F32.eqb, SFeqb.
  destruct x as [sx|sx| |sx mx ex]; simpl; try discriminate;
    try (destruct sx; discriminate);
    try (destruct sg; discriminate).
  destruct sx, sg; try discriminate;
    destruct (ex ?= e) eqn:E; try discriminate;
    apply Z.compare_eq in E; subst ex;
    destruct (Pos.compare_cont Eq mx m) eqn:P; try discriminate;
    apply Pos.compare_eq in P; subst mx; reflexivity.
Qed.

(** The four thresholds as binary32 values: 30, 70, 6 and 8 are exact. *)
Lemma LIMITE_UMIDADE_BAIXA_val :
  LIMITE_UMIDADE_BAIXA = S754_finite false 15728640 (-19).
Proof. vm_compute. reflexivity. Qed.

Lemma LIMITE_UMIDADE_ALTA_val :
  LIMITE_UMIDADE_ALTA = S754_finite false 9175040 (-17).
Proof. vm_compute. reflexivity. Qed.

Lemma LIMITE_PH_BAIXO_val :
  LIMITE_PH_BAIXO = S754_finite false 12582912 (-21).
Proof. vm_compute. reflexivity. Qed.

Lemma LIMITE_PH_ALTO_val :
  LIMITE_PH_ALTO = S754_finite false 8388608 (-20).
Proof. vm_compute. reflexivity. Qed.

Lemma limites_validos :
  F32.valid LIMITE_UMIDADE_BAIXA = true /\ F32.valid LIMITE_UMIDADE_ALTA = true
  /\ F32.valid LIMITE_PH_BAIXO = true /\ F32.valid LIMITE_PH_ALTO = true.
Proof. repeat split; vm_compute; reflexivity. Qed.

(** ** The four rules, branch by branch *)

Section Regras.

Variable s : Estado.

Lemma regra_umidade_baixa (l : Locais) :
  F32.ltb (umidade_solo s) LIMITE_UMIDADE_BAIXA = true ->
  regra_umidade s l = (true, mensagem MOISTURE_LOW s).
Proof. intros H. unfold regra_umidade. destruct l. now rewrite H. Qed.

Lemma regra_umidade_alta (l : Locais) :
  F32.ltb (umidade_solo s) LIMITE_UMIDADE_BAIXA = false ->
  F32.gtb (umidade_solo s) LIMITE_UMIDADE_ALTA = true ->
  regra_umidade s l = (false, mensagem MOISTURE_HIGH s).
Proof. intros H1 H2. unfold regra_umidade. destruct l. now rewrite H1, H2. Qed.

Lemma regra_umidade_normal (l : Locais) :
  F32.ltb (umidade_solo s) LIMITE_UMIDADE_BAIXA = false ->
  F32.gtb (umidade_solo s) LIMITE_UMIDADE_ALTA = false ->
  regra_umidade s l = (fst l, mensagem MOISTURE_NORMAL s).
Proof. intros H1 H2. unfold regra_umidade. destruct l. now rewrite H1, H2. Qed.

Lemma regra_ph_acido (l : Locais) :
  F32.ltb (valor_ph s) LIMITE_PH_BAIXO = true ->
  regra_ph s l = (false, mensagem PH_TOO_ACIDIC s).
Proof. intros H. unfold regra_ph. destruct l. now rewrite H. Qed.

Lemma regra_ph_alcalino (l : Locais) :
  F32.ltb (valor_ph s) LIMITE_PH_BAIXO = false ->
  F32.gtb (valor_ph s) LIMITE_PH_ALTO = true ->
  regra_ph s l = (false, mensagem PH_TOO_ALKALINE s).
Proof. intros H1 H2. unfold regra_ph. destruct l. now rewrite H1, H2. Qed.

Lemma regra_ph_ideal (l : Locais) :
  F32.ltb (valor_ph s) LIMITE_PH_BAIXO = false ->
  F32.gtb (valor_ph s) LIMITE_PH_ALTO = false ->
  regra_ph s l = l.
Proof. intros H1 H2. unfold regra_ph. destruct l. now rewrite H1, H2. Qed.

Lemma regra_sem_nutrientes_ambos_ausentes (l : Locais) :
  fosforo_presente s = false -> potassio_presente s = false ->
  regra_sem_nutrientes s l
  = (true, mensagem NO_NUTRIENTS_FORCE_IRRIGATION s).
Proof.
  intros Hf Hk. unfold regra_sem_nutrientes. destruct l. now rewrite Hf, Hk.
Qed.

Lemma regra_sem_nutrientes_algum (l : Locais) :
  fosforo_presente s = true \/ potassio_presente s = true ->
  regra_sem_nutrientes s l = l.
Proof.
  intros H. unfold regra_sem_nutrientes. destruct l.
  destruct H as [H|H]; rewrite H; simpl; try reflexivity.
  now rewrite andb_false_r.
Qed.

Lemma regra_nutriente_parcial_um (l : Locais) :
  fosforo_presente s <> potassio_presente s ->
  regra_nutriente_parcial s l
  = (true, mensagem PARTIAL_NUTRIENT_BALANCING s).
Proof.
  intros H. unfold regra_nutriente_parcial. destruct l.
  destruct (fosforo_presente s), (potassio_presente s);
    try reflexivity; congruence.
Qed.

Lemma regra_nutriente_parcial_iguais (l : Locais) :
  fosforo_presente s = potassio_presente s ->
  regra_nutriente_parcial s l = l.
Proof.
  intros H. unfold regra_nutriente_parcial. destruct l. rewrite H.
  now destruct (potassio_presente s).
Qed.

End Regras.

(** With both nutrients present the two nutrient rules do nothing: the
    decision is the one of the moisture and pH rules. *)
Lemma decisao_ambos_presentes (s : Estado) :
  fosforo_presente s = true -> potassio_presente s = true ->
  decisao s = regra_ph s (regra_umidade s (false, [])).
Proof.
  intros Hf Hk. unfold decisao.
  rewrite regra_nutriente_parcial_iguais by congruence.
  apply regra_sem_nutrientes_algum. now left.
Qed.

(** The message of a reason code tells the code. *)
Lemma mensagem_inj (c1 c2 : ReasonCode) (s : Estado) :
  mensagem c1 s = mensagem c2 s -> c1 = c2.
Proof.
  destruct c1, c2; intros H; try reflexivity;
    cbv [mensagem txt app] in H; discriminate H.
Qed.

(** The decision depends on the four sensor globals only. *)
Lemma decisao_ext (s1 s2 : Estado) :
  leitura_de s1 = leitura_de s2 -> decisao s1 = decisao s2.
Proof.
  unfold leitura_de. intros H. injection H as Hf Hk Hp Hu.
  unfold decisao, regra_nutriente_parcial, regra_sem_nutrientes, regra_ph,
    regra_umidade.
  now rewrite Hf, Hk, Hp, Hu.
Qed.

(** ** What [analisarDadosEControlarBomba] leaves in the state *)

Lemma analisar_bomba_ativa (s : Estado) :
  bomba_ativa (analisarDadosEControlarBomba s) = fst (decisao s).
Proof. unfold analisarDadosEControlarBomba. now destruct (decisao s). Qed.

Lemma analisar_leitura (s : Estado) :
  leitura_de (analisarDadosEControlarBomba s) = leitura_de s.
Proof. unfold analisarDadosEControlarBomba. now destruct (decisao s). Qed.

Lemma analisar_contador (s : Estado) :
  contador_medicoes (analisarDadosEControlarBomba s) = contador_medicoes s.
Proof. unfold analisarDadosEControlarBomba. now destruct (decisao s). Qed.

Lemma analisar_rele (s : Estado) :
  pinos (analisarDadosEControlarBomba s) !! PIN_RELE
  = Some (nivel_de (fst (decisao s))).
Proof.
  unfold analisarDadosEControlarBomba. destruct (decisao s) as [b m]. simpl.
  unfold PIN_LED, PIN_RELE. now rewrite lookup_insert_eq.
Qed.

Lemma analisar_parcial (s : Estado) :
  parcial (serial (analisarDadosEControlarBomba s)) = [].
Proof. unfold analisarDadosEControlarBomba. now destruct (decisao s). Qed.

(** The last two lines it prints: the reason, then the closing rule. *)
Lemma analisar_motivo (s : Estado) :
  exists antes,
    linhas (serial (analisarDadosEControlarBomba s))
    = antes ++ [txt "Motivo: " ++ snd (decisao s);
                txt "============================"].
Proof.
  unfold analisarDadosEControlarBomba. destruct (decisao s) as [b m].
  simpl. eexists. rewrite <- app_assoc. simpl. reflexivity.
Qed.

Lemma lerSensores_globais (e : Entradas) (s : Estado) :
  leitura_de (lerSensores e s) = leitura_de s
  /\ contador_medicoes (lerSensores e s) = contador_medicoes s
  /\ bomba_ativa (lerSensores e s) = bomba_ativa s.
Proof.
  unfold lerSensores. now destruct (negb (F32.isnan (umidade_dht e))).
Qed.

Lemma simularCenario_contador (s : Estado) :
  contador_medicoes (simularCenario s) = contador_medicoes s.
Proof.
  unfold simularCenario. simpl.
  destruct (cenario_atual s) as [|[[[]|[]|]|[[]|[]|]|]|]; reflexivity.
Qed.

Lemma exibirDadosCSV_linhas (s : Estado) :
  parcial (serial s) = [] ->
  linhas (serial (exibirDadosCSV s))
  = linhas (serial s)
      ++ [registro_csv (contador_medicoes s) (leitura_de s) (bomba_ativa s)]
  /\ parcial (serial (exibirDadosCSV s)) = [].
Proof.
  intros H. unfold exibirDadosCSV. simpl. rewrite H. split; reflexivity.
Qed.

Lemma render_registro_csv (core : ArduinoCore) (n : Z) (r : Leitura) (b : bool) :
  render core (registro_csv n r b)
  = fmt_ulong core n +:+ "," +:+ bit (phosphorusPresent r) +:+ ","
    +:+ bit (potassiumPresent r) +:+ ","
    +:+ fmt_print_float core (pH r) 2 +:+ ","
    +:+ fmt_print_float core (moisturePercent r) 1 +:+ "," +:+ bit b.
Proof.
  unfold registro_csv. simpl.
  destruct (phosphorusPresent r), (potassiumPresent r), b; reflexivity.
Qed.

Lemma linhas_Serial_println (t : Text) (s : Estado) :
  linhas (serial (Serial_println t s))
  = linhas (serial s) ++ [parcial (serial s) ++ t].
Proof. reflexivity. Qed.

Lemma serial_set_cenario_atual (v : Z) (s : Estado) :
  serial (set_cenario_atual v s) = serial s.
Proof. reflexivity. Qed.

(** One pass of [loop] once the interval has elapsed. *)
Lemma loop_decorrido (e : Entradas) (s : Estado) :
  intervalo_decorrido e s = true ->
  loop e s
  = let s5 := exibirDadosCSV
                (analisarDadosEControlarBomba
                   (lerSensores e (leitura_do_ciclo e s))) in
    Serial_println [] (set_cenario_atual (Z.rem (cenario_atual s5 + 1) 6) s5).
Proof. intros H. unfold loop. rewrite H. reflexivity. Qed.

Lemma loop_em_espera (e : Entradas) (s : Estado) :
  intervalo_decorrido e s = false -> loop e s = s.
Proof. intros H. unfold loop. now rewrite H. Qed.

(** ** The demonstration scenarios (specification, section 8) *)

Example cenario_1 :
  decisao (no_cenario 0)
  = (true, mensagem NO_NUTRIENTS_FORCE_IRRIGATION (no_cenario 0)).
Proof. vm_compute. reflexivity. Qed.

Example cenario_2 :
  decisao (no_cenario 1)
  = (true, mensagem PARTIAL_NUTRIENT_BALANCING (no_cenario 1)).
Proof. vm_compute. reflexivity. Qed.

Example cenario_3 :
  decisao (no_cenario 2)
  = (true, mensagem PARTIAL_NUTRIENT_BALANCING (no_cenario 2)).
Proof. vm_compute. reflexivity. Qed.

Example cenario_4 :
  decisao (no_cenario 3) = (false, mensagem PH_TOO_ACIDIC (no_cenario 3)).
Proof. vm_compute. reflexivity. Qed.

Example cenario_5 :
  decisao (no_cenario 4) = (false, mensagem PH_TOO_ALKALINE (no_cenario 4)).
Proof. vm_compute. reflexivity. Qed.

Example cenario_6 :
  decisao (no_cenario 5) = (false, mensagem MOISTURE_NORMAL (no_cenario 5)).
Proof. vm_compute. reflexivity. Qed.

(** The first record line after power-on is the one the specification
    quotes, [1,0,0,7.20,45.0,1], before the numbers are formatted. *)
Example primeira_linha_csv :
  List.last
    (List.removelast (linhas (serial (executar 0 [entradas_demo 3000])))) []
  = [PrintULong 1; Lit ","; Lit "0"; Lit ","; Lit "0"; Lit ",";
     PrintFloat (F32.lit 72 1) 2; Lit ",";
     PrintFloat (F32.lit 450 1) 1; Lit ","; Lit "1"].
Proof. vm_compute. reflexivity. Qed.

(** Values outside the expected ranges go through the same comparisons. *)
Example fora_da_faixa :
  decisao (estado_com true true (F32.lit 200 1) (F32.lit 500 1) false)
  = (false, mensagem PH_TOO_ALKALINE
              (estado_com true true (F32.lit 200 1) (F32.lit 500 1) false))
  /\ decisao (estado_com true true (F32.lit 70 1) (F32.lit (-50) 1) false)
     = (true, mensagem MOISTURE_LOW
                (estado_com true true (F32.lit 70 1) (F32.lit (-50) 1) false))
  /\ decisao (estado_com true true (F32.lit 70 1) (S754_infinity false) true)
     = (false, mensagem MOISTURE_HIGH
                 (estado_com true true (F32.lit 70 1) (S754_infinity false) true))
  /\ decisao (estado_com true true F32.nan F32.nan true)
     = (false, mensagem MOISTURE_NORMAL
                 (estado_com true true F32.nan F32.nan true)).
Proof. repeat split; vm_compute; reflexivity. Qed.

(** ** The decision policy *)

(** C1.  For every reading with both phosphorus and potassium present,
    moisture below 30.0 and pH below 6.0, the pump is decided off with the
    reason "pH too acidic": the moisture rule did turn the pump on
    (rule 1), the pH rule overrode it (rule 2), and neither nutrient rule
    fires to turn it back on (rules 3 and 4 leave the locals as they
    are). *)
Theorem ph_acido_vence_umidade_baixa (s : Estado) :
  fosforo_presente s = true ->
  potassio_presente s = true ->
  F32.ltb (umidade_solo s) LIMITE_UMIDADE_BAIXA = true ->
  F32.ltb (valor_ph s) LIMITE_PH_BAIXO = true ->
  regra_umidade s (false, []) = (true, mensagem MOISTURE_LOW s)
  /\ (forall l, regra_sem_nutrientes s l = l)
  /\ (forall l, regra_nutriente_parcial s l = l)
  /\ decisao s = (false, mensagem PH_TOO_ACIDIC s)
  /\ bomba_ativa (analisarDadosEControlarBomba s) = false.
Proof.
  intros Hf Hk Hu Hp.
  assert (Hd : decisao s = (false, mensagem PH_TOO_ACIDIC s)).
  { rewrite decisao_ambos_presentes by assumption.
    now apply regra_ph_acido. }
  repeat split.
  - now apply regra_umidade_baixa.
  - intros l. apply regra_sem_nutrientes_algum. now left.
  - intros l. apply regra_nutriente_parcial_iguais. congruence.
  - exact Hd.
  - rewrite analisar_bomba_ativa, Hd. reflexivity.
Qed.

Lemma ph_acido_vence_umidade_baixa_witness :
  decisao s_acido_seco = (false, mensagem PH_TOO_ACIDIC s_acido_seco)
  /\ bomba_ativa (analisarDadosEControlarBomba s_acido_seco) = false.
Proof.
  destruct (ph_acido_vence_umidade_baixa s_acido_seco)
    as (_ & _ & _ & Hd & Hb);
    try (vm_compute; reflexivity).
  split; assumption.
Defined.

(** C2.  For every reading in which both phosphorus and potassium are
    absent, the pump is decided on with the reason "no nutrients, forced
    irrigation", whatever the moisture and the pH are. *)
Theorem sem_nutrientes_forca_irrigacao (s : Estado) :
  fosforo_presente s = false ->
  potassio_presente s = false ->
  decisao s = (true, mensagem NO_NUTRIENTS_FORCE_IRRIGATION s)
  /\ bomba_ativa (analisarDadosEControlarBomba s) = true.
Proof.
  intros Hf Hk.
  assert (Hd : decisao s = (true, mensagem NO_NUTRIENTS_FORCE_IRRIGATION s)).
  { unfold decisao.
    rewrite regra_nutriente_parcial_iguais by congruence.
    now apply regra_sem_nutrientes_ambos_ausentes. }
  split; [exact Hd|]. rewrite analisar_bomba_ativa, Hd. reflexivity.
Qed.

Lemma sem_nutrientes_forca_irrigacao_witness :
  F32.gtb (valor_ph s_sem_nutrientes) LIMITE_PH_ALTO = true
  /\ F32.gtb (umidade_solo s_sem_nutrientes) LIMITE_UMIDADE_ALTA = true
  /\ decisao s_sem_nutrientes
     = (true, mensagem NO_NUTRIENTS_FORCE_IRRIGATION s_sem_nutrientes)
  /\ bomba_ativa (analisarDadosEControlarBomba s_sem_nutrientes) = true.
Proof.
  split; [vm_compute; reflexivity|].
  split; [vm_compute; reflexivity|].
  apply (sem_nutrientes_forca_irrigacao s_sem_nutrientes); reflexivity.
Defined.

(** C3.  For every reading in which exactly one of phosphorus and
    potassium is present, the pump is decided on with the reason "partial
    nutrient, balancing", whatever the moisture and the pH are; in
    particular whatever the pH rule had decided is replaced. *)
Theorem nutriente_parcial_liga_bomba (s : Estado) :
  (fosforo_presente s = true /\ potassio_presente s = false)
  \/ (fosforo_presente s = false /\ potassio_presente s = true) ->
  (forall l, regra_nutriente_parcial s l
             = (true, mensagem PARTIAL_NUTRIENT_BALANCING s))
  /\ decisao s = (true, mensagem PARTIAL_NUTRIENT_BALANCING s)
  /\ bomba_ativa (analisarDadosEControlarBomba s) = true.
Proof.
  intros H.
  assert (Hne : fosforo_presente s <> potassio_presente s).
  { destruct H as [[Hf Hk]|[Hf Hk]]; rewrite Hf, Hk; discriminate. }
  assert (Hd : decisao s = (true, mensagem PARTIAL_NUTRIENT_BALANCING s)).
  { unfold decisao. now apply regra_nutriente_parcial_um. }
  split; [|split].
  - intros l. now apply regra_nutriente_parcial_um.
  - exact Hd.
  - rewrite analisar_bomba_ativa, Hd. reflexivity.
Qed.

Lemma nutriente_parcial_liga_bomba_witness :
  regra_ph s_so_potassio (regra_umidade s_so_potassio (false, []))
  = (false, mensagem PH_TOO_ACIDIC s_so_potassio)
  /\ decisao s_so_potassio
     = (true, mensagem PARTIAL_NUTRIENT_BALANCING s_so_potassio)
  /\ bomba_ativa (analisarDadosEControlarBomba s_so_potassio) = true.
Proof.
  split; [vm_compute; reflexivity|].
  apply (nutriente_parcial_liga_bomba s_so_potassio).
  right. split; reflexivity.
Defined.

(** C4.  For every reading with both nutrients present, moisture strictly
    below 30.0 and pH within [6.0, 8.0], the pump is decided on with the
    reason "moisture low". *)
Theorem umidade_baixa_liga_bomba (s : Estado) :
  fosforo_presente s = true ->
  potassio_presente s = true ->
  F32.ltb (umidade_solo s) LIMITE_UMIDADE_BAIXA = true ->
  F32.leb LIMITE_PH_BAIXO (valor_ph s) = true ->
  F32.leb (valor_ph s) LIMITE_PH_ALTO = true ->
  decisao s = (true, mensagem MOISTURE_LOW s)
  /\ bomba_ativa (analisarDadosEControlarBomba s) = true.
Proof.
  intros Hf Hk Hu Hlo Hhi.
  assert (Hd : decisao s = (true, mensagem MOISTURE_LOW s)).
  { rewrite decisao_ambos_presentes by assumption.
    rewrite regra_ph_ideal.
    - now apply regra_umidade_baixa.
    - now apply leb_not_ltb.
    - now apply leb_not_gtb. }
  split; [exact Hd|]. rewrite analisar_bomba_ativa, Hd. reflexivity.
Qed.

Lemma umidade_baixa_liga_bomba_witness :
  decisao s_seco = (true, mensagem MOISTURE_LOW s_seco)
  /\ bomba_ativa (analisarDadosEControlarBomba s_seco) = true.
Proof.
  apply (umidade_baixa_liga_bomba s_seco); vm_compute; reflexivity.
Defined.

(** C5.  For every reading with both nutrients present, moisture in the
    normal band from 30 to 70 (bounds included) and pH within [6.0, 8.0],
    the pump is decided off with the reason "moisture normal", whatever the
    pump flag was before. *)
Theorem umidade_normal_bomba_desligada (s : Estado) :
  fosforo_presente s = true ->
  potassio_presente s = true ->
  F32.leb LIMITE_UMIDADE_BAIXA (umidade_solo s) = true ->
  F32.leb (umidade_solo s) LIMITE_UMIDADE_ALTA = true ->
  F32.leb LIMITE_PH_BAIXO (valor_ph s) = true ->
  F32.leb (valor_ph s) LIMITE_PH_ALTO = true ->
  decisao s = (false, mensagem MOISTURE_NORMAL s)
  /\ bomba_ativa (analisarDadosEControlarBomba s) = false.
Proof.
  intros Hf Hk Hul Huh Hlo Hhi.
  assert (Hd : decisao s = (false, mensagem MOISTURE_NORMAL s)).
  { rewrite decisao_ambos_presentes by assumption.
    rewrite regra_ph_ideal.
    - apply (regra_umidade_normal s (false, [])).
      + now apply leb_not_ltb.
      + now apply leb_not_gtb.
    - now apply leb_not_ltb.
    - now apply leb_not_gtb. }
  split; [exact Hd|]. rewrite analisar_bomba_ativa, Hd. reflexivity.
Qed.

Lemma umidade_normal_bomba_desligada_witness :
  bomba_ativa s_ideal = true
  /\ decisao s_ideal = (false, mensagem MOISTURE_NORMAL s_ideal)
  /\ bomba_ativa (analisarDadosEControlarBomba s_ideal) = false.
Proof.
  split; [reflexivity|].
  apply (umidade_normal_bomba_desligada s_ideal); vm_compute; reflexivity.
Defined.

(** C6.  The decision is a function of the reading alone.  Two states of
    the sketch that hold the same reading, however they differ in the pump
    flag, the counters, the pins and the serial output left by earlier
    cycles, get the same decision, the same pump flag and the same relay
    level; and evaluating again the state an evaluation has left gives the
    same decision. *)
Theorem decisao_funcao_da_leitura (s1 s2 : Estado) :
  leitura_de s1 = leitura_de s2 ->
  decisao s1 = decisao s2
  /\ bomba_ativa (analisarDadosEControlarBomba s1)
     = bomba_ativa (analisarDadosEControlarBomba s2)
  /\ pinos (analisarDadosEControlarBomba s1) !! PIN_RELE
     = pinos (analisarDadosEControlarBomba s2) !! PIN_RELE
  /\ decisao (analisarDadosEControlarBomba s1) = decisao s1
  /\ bomba_ativa
       (analisarDadosEControlarBomba (analisarDadosEControlarBomba s1))
     = bomba_ativa (analisarDadosEControlarBomba s1).
Proof.
  intros H. pose proof (decisao_ext s1 s2 H) as Hd.
  pose proof (decisao_ext _ _ (analisar_leitura s1)) as Hi.
  repeat split.
  - exact Hd.
  - now rewrite !analisar_bomba_ativa, Hd.
  - now rewrite !analisar_rele, Hd.
  - exact Hi.
  - now rewrite !analisar_bomba_ativa, Hi.
Qed.

Lemma decisao_funcao_da_leitura_witness :
  s_ideal <> executar 0 [entradas_demo 3000; entradas_demo 6000;
                         entradas_demo 9000; entradas_demo 12000;
                         entradas_demo 15000; entradas_demo 18000]
  /\ decisao s_ideal
     = decisao (executar 0 [entradas_demo 3000; entradas_demo 6000;
                            entradas_demo 9000; entradas_demo 12000;
                            entradas_demo 15000; entradas_demo 18000]).
Proof.
  split.
  - intros H. apply (f_equal contador_medicoes) in H.
    vm_compute in H. discriminate H.
  - apply (decisao_funcao_da_leitura s_ideal). vm_compute. reflexivity.
Defined.

(** C7.  The evaluation is total: for every state of the globals, with any
    pH and moisture (out of range, infinite or NaN), it yields a pump flag
    and the message of one of the seven reason codes, stores the flag and
    drives the relay with it.  No branch fails. *)
Theorem decisao_total (s : Estado) :
  exists (b : bool) (c : ReasonCode),
    decisao s = (b, mensagem c s)
    /\ bomba_ativa (analisarDadosEControlarBomba s) = b
    /\ pinos (analisarDadosEControlarBomba s) !! PIN_RELE
       = Some (nivel_de b).
Proof.
  assert (H : exists b c, decisao s = (b, mensagem c s)).
  { unfold decisao, regra_nutriente_parcial, regra_sem_nutrientes, regra_ph,
      regra_umidade.
    destruct (F32.ltb (umidade_solo s) LIMITE_UMIDADE_BAIXA),
      (F32.gtb (umidade_solo s) LIMITE_UMIDADE_ALTA),
      (F32.ltb (valor_ph s) LIMITE_PH_BAIXO),
      (F32.gtb (valor_ph s) LIMITE_PH_ALTO),
      (fosforo_presente s), (potassio_presente s);
      cbn [negb andb orb];
      first
        [ now exists true, MOISTURE_LOW
        | now exists false, MOISTURE_HIGH
        | now exists false, MOISTURE_NORMAL
        | now exists false, PH_TOO_ACIDIC
        | now exists false, PH_TOO_ALKALINE
        | now exists true, NO_NUTRIENTS_FORCE_IRRIGATION
        | now exists true, PARTIAL_NUTRIENT_BALANCING ]. }
  destruct H as (b & c & Hd). exists b, c.
  rewrite analisar_bomba_ativa, analisar_rele, Hd. auto.
Qed.

(** C9.  The threshold comparisons are strict.  A moisture of exactly 30.0
    or exactly 70.0 takes the "moisture normal" branch, which leaves the
    pump flag as it was; a pH of exactly 6.0 or exactly 8.0 does not
    trigger the pH block; and with both nutrients present, moisture 30.0
    and pH 6.0 give pump off with the reason "moisture normal". *)
Theorem limiares_estritos (s : Estado) (l : Locais) :
  (F32.eqb (umidade_solo s) LIMITE_UMIDADE_BAIXA = true
   \/ F32.eqb (umidade_solo s) LIMITE_UMIDADE_ALTA = true ->
   regra_umidade s l = (fst l, mensagem MOISTURE_NORMAL s))
  /\ (F32.eqb (valor_ph s) LIMITE_PH_BAIXO = true
      \/ F32.eqb (valor_ph s) LIMITE_PH_ALTO = true ->
      regra_ph s l = l)
  /\ (fosforo_presente s = true ->
      potassio_presente s = true ->
      F32.eqb (umidade_solo s) LIMITE_UMIDADE_BAIXA = true ->
      F32.eqb (valor_ph s) LIMITE_PH_BAIXO = true ->
      decisao s = (false, mensagem MOISTURE_NORMAL s)
      /\ bomba_ativa (analisarDadosEControlarBomba s) = false).
Proof.
  assert (Hu : F32.eqb (umidade_solo s) LIMITE_UMIDADE_BAIXA = true
               \/ F32.eqb (umidade_solo s) LIMITE_UMIDADE_ALTA = true ->
               forall l', regra_umidade s l'
                          = (fst l', mensagem MOISTURE_NORMAL s)).
  { intros H l'. apply regra_umidade_normal.
    - destruct H as [H|H];
        [rewrite LIMITE_UMIDADE_BAIXA_val in H
        |rewrite LIMITE_UMIDADE_ALTA_val in H];
        apply eqb_finite_eq in H; rewrite H; vm_compute; reflexivity.
    - destruct H as [H|H];
        [rewrite LIMITE_UMIDADE_BAIXA_val in H
        |rewrite LIMITE_UMIDADE_ALTA_val in H];
        apply eqb_finite_eq in H; rewrite H; vm_compute; reflexivity. }
  assert (Hp : F32.eqb (valor_ph s) LIMITE_PH_BAIXO = true
               \/ F32.eqb (valor_ph s) LIMITE_PH_ALTO = true ->
               forall l', regra_ph s l' = l').
  { intros H l'. apply regra_ph_ideal.
    - destruct H as [H|H];
        [rewrite LIMITE_PH_BAIXO_val in H|rewrite LIMITE_PH_ALTO_val in H];
        apply eqb_finite_eq in H; rewrite H; vm_compute; reflexivity.
    - destruct H as [H|H];
        [rewrite LIMITE_PH_BAIXO_val in H|rewrite LIMITE_PH_ALTO_val in H];
        apply eqb_finite_eq in H; rewrite H; vm_compute; reflexivity. }
  split; [|split].
  - intros H. now apply Hu.
  - intros H. now apply Hp.
  - intros Hf Hk H30 H6.
    assert (Hd : decisao s = (false, mensagem MOISTURE_NORMAL s)).
    { rewrite decisao_ambos_presentes by assumption.
      rewrite Hp by now left. apply (Hu (or_introl H30) (false, [])). }
    split; [exact Hd|]. rewrite analisar_bomba_ativa, Hd. reflexivity.
Qed.

Lemma limiares_estritos_witness :
  bomba_ativa s_limiar = true
  /\ decisao s_limiar = (false, mensagem MOISTURE_NORMAL s_limiar)
  /\ bomba_ativa (analisarDadosEControlarBomba s_limiar) = false.
Proof.
  split; [reflexivity|].
  destruct (limiares_estritos s_limiar (false, [])) as (_ & _ & H).
  apply H; vm_compute; reflexivity.
Defined.

(** C10, as first stated, fails.  It reads: the pump is on if and only if
    not both nutrients are present, or both are present, moisture < 30.0,
    6.0 <= pH and pH <= 8.0.  With both nutrients present, moisture 25.0
    and a pH that is NaN, neither [pH < 6.0] nor [pH > 8.0] holds, so the
    pH rule does not block and the pump is on, while [6.0 <= pH] is
    false. *)
Lemma caracterizacao_com_intervalo_fechado_falha :
  ~ (forall s : Estado,
       bomba_ativa (analisarDadosEControlarBomba s) = true <->
       ~ (fosforo_presente s = true /\ potassio_presente s = true)
       \/ (fosforo_presente s = true /\ potassio_presente s = true
           /\ F32.ltb (umidade_solo s) LIMITE_UMIDADE_BAIXA = true
           /\ F32.leb LIMITE_PH_BAIXO (valor_ph s) = true
           /\ F32.leb (valor_ph s) LIMITE_PH_ALTO = true)).
Proof.
  intros H. destruct (H s_ph_nan) as [Hon _].
  assert (Hb : bomba_ativa (analisarDadosEControlarBomba s_ph_nan) = true)
    by (vm_compute; reflexivity).
  destruct (Hon Hb) as [Hn | (_ & _ & _ & H6 & _)].
  - apply Hn. split; reflexivity.
  - vm_compute in H6. discriminate H6.
Qed.

(** C10, amended.  For every state, whatever the pump flag was before, the
    pump is on after the evaluation if and only if not both nutrients are
    present, or both are present, moisture < 30.0 and the pH is neither
    below 6.0 nor above 8.0.  When the pH is a number (not NaN) the last
    condition is the same as 6.0 <= pH and pH <= 8.0.  The flag left by
    the previous cycle has no influence: each evaluation starts from pump
    off. *)
Theorem bomba_ligada_sse (s : Estado) :
  (bomba_ativa (analisarDadosEControlarBomba s) = true <->
   ~ (fosforo_presente s = true /\ potassio_presente s = true)
   \/ (fosforo_presente s = true /\ potassio_presente s = true
       /\ F32.ltb (umidade_solo s) LIMITE_UMIDADE_BAIXA = true
       /\ F32.ltb (valor_ph s) LIMITE_PH_BAIXO = false
       /\ F32.gtb (valor_ph s) LIMITE_PH_ALTO = false))
  /\ (F32.isnan (valor_ph s) = false ->
      (bomba_ativa (analisarDadosEControlarBomba s) = true <->
       ~ (fosforo_presente s = true /\ potassio_presente s = true)
       \/ (fosforo_presente s = true /\ potassio_presente s = true
           /\ F32.ltb (umidade_solo s) LIMITE_UMIDADE_BAIXA = true
           /\ F32.leb LIMITE_PH_BAIXO (valor_ph s) = true
           /\ F32.leb (valor_ph s) LIMITE_PH_ALTO = true)))
  /\ (forall b : bool,
        bomba_ativa (analisarDadosEControlarBomba (set_bomba_ativa b s))
        = bomba_ativa (analisarDadosEControlarBomba s)).
Proof.
  assert (H1 :
    bomba_ativa (analisarDadosEControlarBomba s) = true <->
    ~ (fosforo_presente s = true /\ potassio_presente s = true)
    \/ (fosforo_presente s = true /\ potassio_presente s = true
        /\ F32.ltb (umidade_solo s) LIMITE_UMIDADE_BAIXA = true
        /\ F32.ltb (valor_ph s) LIMITE_PH_BAIXO = false
        /\ F32.gtb (valor_ph s) LIMITE_PH_ALTO = false)).
  { rewrite analisar_bomba_ativa.
    unfold decisao, regra_nutriente_parcial, regra_sem_nutrientes, regra_ph,
      regra_umidade.
    destruct (F32.ltb (umidade_solo s) LIMITE_UMIDADE_BAIXA),
      (F32.gtb (umidade_solo s) LIMITE_UMIDADE_ALTA),
      (F32.ltb (valor_ph s) LIMITE_PH_BAIXO),
      (F32.gtb (valor_ph s) LIMITE_PH_ALTO),
      (fosforo_presente s), (potassio_presente s);
      cbn [negb andb orb fst]; intuition congruence. }
  split; [exact H1|split].
  - intros Hnan. rewrite H1.
    assert (Hlo : F32.ltb (valor_ph s) LIMITE_PH_BAIXO = false
                  <-> F32.leb LIMITE_PH_BAIXO (valor_ph s) = true).
    { apply ltb_false_iff_leb; [exact Hnan|reflexivity]. }
    assert (Hhi : F32.gtb (valor_ph s) LIMITE_PH_ALTO = false
                  <-> F32.leb (valor_ph s) LIMITE_PH_ALTO = true).
    { apply (ltb_false_iff_leb LIMITE_PH_ALTO (valor_ph s));
        [reflexivity|exact Hnan]. }
    rewrite Hlo, Hhi. reflexivity.
  - intros b. rewrite !analisar_bomba_ativa.
    now rewrite (decisao_ext (set_bomba_ativa b s) s).
Qed.

Lemma bomba_ligada_sse_witness :
  bomba_ativa (analisarDadosEControlarBomba s_seco) = true <->
  ~ (fosforo_presente s_seco = true /\ potassio_presente s_seco = true)
  \/ (fosforo_presente s_seco = true /\ potassio_presente s_seco = true
      /\ F32.ltb (umidade_solo s_seco) LIMITE_UMIDADE_BAIXA = true
      /\ F32.leb LIMITE_PH_BAIXO (valor_ph s_seco) = true
      /\ F32.leb (valor_ph s_seco) LIMITE_PH_ALTO = true).
Proof.
  destruct (bomba_ligada_sse s_seco) as (_ & H & _).
  apply H. reflexivity.
Defined.

(** C8.  When the reading interval has elapsed, one pass of [loop] ends its
    output with the record line of the cycle followed by an empty line.
    The record has six fields in this order: the cycle counter (the old
    one plus one), phosphorus as 0 or 1, potassium as 0 or 1, the pH
    printed with 2 decimals, the moisture printed with 1 decimal, and the
    pump as 0 or 1, where the pump is the decision taken on the reading of
    that same cycle.  Whatever the Arduino core's number formatting is,
    the characters sent are these six fields separated by commas. *)
Theorem registro_csv_do_ciclo (e : Entradas) (s : Estado) :
  intervalo_decorrido e s = true ->
  contador_medicoes (leitura_do_ciclo e s) = ulong_succ (contador_medicoes s)
  /\ (exists antes : list Text,
        linhas (serial (loop e s))
        = antes ++ [registro_csv (contador_medicoes (leitura_do_ciclo e s))
                      (leitura_de (leitura_do_ciclo e s))
                      (fst (decisao (leitura_do_ciclo e s)));
                    []])
  /\ (forall core : ArduinoCore,
        render core
          (registro_csv (contador_medicoes (leitura_do_ciclo e s))
             (leitura_de (leitura_do_ciclo e s))
             (fst (decisao (leitura_do_ciclo e s))))
        = fmt_ulong core (ulong_succ (contador_medicoes s)) +:+ ","
          +:+ bit (fosforo_presente (leitura_do_ciclo e s)) +:+ ","
          +:+ bit (potassio_presente (leitura_do_ciclo e s)) +:+ ","
          +:+ fmt_print_float core (valor_ph (leitura_do_ciclo e s)) 2 +:+ ","
          +:+ fmt_print_float core (umidade_solo (leitura_do_ciclo e s)) 1
          +:+ ","
          +:+ bit (bomba_ativa (analisarDadosEControlarBomba
                                  (leitura_do_ciclo e s)))).
Proof.
  intros H.
  assert (Hc : contador_medicoes (leitura_do_ciclo e s)
               = ulong_succ (contador_medicoes s)).
  { unfold leitura_do_ciclo. now rewrite simularCenario_contador. }
  split; [exact Hc|split].
  - rewrite (loop_decorrido e s H).
    set (c := leitura_do_ciclo e s).
    set (a := analisarDadosEControlarBomba (lerSensores e c)).
    rewrite linhas_Serial_println, serial_set_cenario_atual.
    destruct (exibirDadosCSV_linhas a (analisar_parcial _)) as [HL HP].
    rewrite HL, HP.
    destruct (lerSensores_globais e c) as (Hr & Hn & _).
    exists (linhas (serial a)).
    rewrite <- app_assoc. simpl. do 3 f_equal; subst a.
    + now rewrite analisar_contador.
    + now rewrite analisar_leitura.
    + now rewrite analisar_bomba_ativa, (decisao_ext _ _ Hr).
  - intros core. rewrite render_registro_csv, Hc, analisar_bomba_ativa.
    reflexivity.
Qed.

Lemma registro_csv_do_ciclo_witness :
  exists antes : list Text,
    linhas (serial (loop (entradas_demo 3000) (setup 0 estado_inicial)))
    = antes ++ [[PrintULong 1; Lit ","; Lit "0"; Lit ","; Lit "0"; Lit ",";
                 PrintFloat (F32.lit 72 1) 2; Lit ",";
                 PrintFloat (F32.lit 450 1) 1; Lit ","; Lit "1"];
                []].
Proof.
  destruct (registro_csv_do_ciclo (entradas_demo 3000)
              (setup 0 estado_inicial)) as (_ & H & _).
  - vm_compute. reflexivity.
  - exact H.
Defined.

(** * The rest of the sketch *)

(** ** Which globals each function writes *)


Lemma simularCenario_dentro (s : Estado) :
  0 <= cenario_atual s < 6 ->
  leitura_de (simularCenario s) = leitura_de (no_cenario (cenario_atual s))
  /\ exists l : Text,
       indice l = []
       /\ serial (simularCenario s)
          = {| linhas := linhas (serial s)
                           ++ [parcial (serial s)
                                 ++ txt ">>> CENÁRIO "
                                 ++ [PrintInt (cenario_atual s + 1)] ++ l];
               parcial := [] |}.
Proof.
  intros H.
  assert (Hc : cenario_atual s = 0 \/ cenario_atual s = 1
               \/ cenario_atual s = 2 \/ cenario_atual s = 3
               \/ cenario_atual s = 4 \/ cenario_atual s = 5) by lia.
  unfold no_cenario, simularCenario. simpl.
  destruct Hc as [Hc|[Hc|[Hc|[Hc|[Hc|Hc]]]]]; rewrite Hc; simpl;
    (split; [reflexivity|]);
    eexists (Lit "/6: " :: [Lit _]);
    (split; [reflexivity|]);
    unfold port_println, port_print; simpl;
    rewrite <- !app_assoc; reflexivity.
Qed.

Lemma simularCenario_resto (s : Estado) :
  bomba_ativa (simularCenario s) = bomba_ativa s
  /\ ultima_leitura (simularCenario s) = ultima_leitura s
  /\ cenario_atual (simularCenario s) = cenario_atual s
  /\ modos (simularCenario s) = modos s
  /\ pinos (simularCenario s) = pinos s.
Proof.
  unfold simularCenario. simpl.
  destruct (cenario_atual s) as [|[[[]|[]|]|[[]|[]|]|]|] eqn:E;
    repeat split; try reflexivity; exact E.
Qed.

Lemma lerSensores_so_serial (e : Entradas) (s : Estado) :
  exists p : SerialPort, lerSensores e s = set_serial p s.
Proof.
  unfold lerSensores. destruct (negb (F32.isnan (umidade_dht e)));
    eexists; reflexivity.
Qed.

Lemma exibirDadosCSV_so_serial (s : Estado) :
  exists p : SerialPort, exibirDadosCSV s = set_serial p s.
Proof. eexists. reflexivity. Qed.

Lemma analisar_escritas (s : Estado) :
  exists p : SerialPort,
    analisarDadosEControlarBomba s
    = set_serial p
        (set_pinos
           (<[PIN_LED := nivel_de (fst (decisao s))]>
              (<[PIN_RELE := nivel_de (fst (decisao s))]> (pinos s)))
           (set_bomba_ativa (fst (decisao s)) s)).
Proof.
  unfold analisarDadosEControlarBomba. destruct (decisao s) as [b m].
  eexists. reflexivity.
Qed.

(** The globals and pins one pass of [loop] leaves, once the interval has
    elapsed. *)
Lemma loop_globais (e : Entradas) (s : Estado) :
  intervalo_decorrido e s = true ->
  ultima_leitura (loop e s) = millis e
  /\ contador_medicoes (loop e s) = ulong_succ (contador_medicoes s)
  /\ cenario_atual (loop e s) = Z.rem (cenario_atual s + 1) 6
  /\ leitura_de (loop e s) = leitura_de (leitura_do_ciclo e s)
  /\ bomba_ativa (loop e s) = fst (decisao (leitura_do_ciclo e s))
  /\ modos (loop e s) = modos s
  /\ pinos (loop e s)
     = <[PIN_LED := nivel_de (fst (decisao (leitura_do_ciclo e s)))]>
         (<[PIN_RELE := nivel_de (fst (decisao (leitura_do_ciclo e s)))]>
            (pinos s)).
Proof.
  intros H. rewrite (loop_decorrido e s H). cbv zeta.
  set (c := leitura_do_ciclo e s).
  destruct (lerSensores_so_serial e c) as [p1 E1]. rewrite E1.
  destruct (analisar_escritas (set_serial p1 c)) as [p2 E2]. rewrite E2.
  rewrite (decisao_ext (set_serial p1 c) c) by reflexivity.
  match goal with
  | |- context [exibirDadosCSV ?a] =>
      destruct (exibirDadosCSV_so_serial a) as [p3 E3]; rewrite E3
  end.
  destruct (simularCenario_resto (inicio_do_ciclo e s))
    as (Hb & Hu & Hc & Hm & Hp).
  pose proof (simularCenario_contador (inicio_do_ciclo e s)) as Hn.
  fold (leitura_do_ciclo e s) in Hb, Hu, Hc, Hm, Hp, Hn. fold c in Hb, Hu, Hc, Hm, Hp, Hn.
  repeat split.
  - transitivity (ultima_leitura c); [reflexivity|]. now rewrite Hu.
  - transitivity (contador_medicoes c); [reflexivity|]. now rewrite Hn.
  - transitivity (Z.rem (cenario_atual c + 1) 6); [reflexivity|].
    now rewrite Hc.
  - transitivity (modos c); [reflexivity|]. now rewrite Hm.
  - transitivity
      (<[PIN_LED := nivel_de (fst (decisao c))]>
         (<[PIN_RELE := nivel_de (fst (decisao c))]> (pinos c)));
      [reflexivity|]. now rewrite Hp.
Qed.

(** ** Timing of the passes (lines 71-74) *)

(** X1.  The interval test survives the wrap-around of [millis()].  If
    [d] milliseconds (less than 2^32) separate the last reading from the
    clock value the pass sees, the pass runs exactly when [d >= 3000],
    also when the clock has wrapped in between; a pass that comes too
    early changes nothing at all, and a pass that runs records the clock
    value and counts one more measurement. *)
Theorem intervalo_resiste_ao_estouro (e : Entradas) (s : Estado) (d : Z) :
  0 <= ultima_leitura s < ULONG_MOD ->
  0 <= d < ULONG_MOD ->
  millis e = (ultima_leitura s + d) mod ULONG_MOD ->
  intervalo_decorrido e s = (INTERVALO_LEITURA <=? d)
  /\ (d < INTERVALO_LEITURA -> loop e s = s)
  /\ (INTERVALO_LEITURA <= d ->
      ultima_leitura (loop e s) = millis e
      /\ contador_medicoes (loop e s) = ulong_succ (contador_medicoes s)).
Proof.
  intros Hu Hd Hm.
  assert (Hi : intervalo_decorrido e s = (INTERVALO_LEITURA <=? d)).
  { unfold intervalo_decorrido, ulong_sub. rewrite Hm.
    rewrite Zminus_mod_idemp_l.
    replace (ultima_leitura s + d - ultima_leitura s) with d by lia.
    now rewrite Z.mod_small by lia. }
  split; [exact Hi|split].
  - intros Hlt. apply loop_em_espera. rewrite Hi. now apply Z.leb_gt.
  - intros Hge.
    assert (He : intervalo_decorrido e s = true)
      by (rewrite Hi; now apply Z.leb_le).
    destruct (loop_globais e s He) as (H1 & H2 & _). now split.
Qed.

Lemma intervalo_resiste_ao_estouro_witness :
  millis (entradas_demo 2000) < ultima_leitura s_perto_do_estouro
  /\ ultima_leitura (loop (entradas_demo 2000) s_perto_do_estouro) = 2000
  /\ contador_medicoes (loop (entradas_demo 2000) s_perto_do_estouro) = 1.
Proof.
  split; [vm_compute; reflexivity|].
  destruct (intervalo_resiste_ao_estouro (entradas_demo 2000)
              s_perto_do_estouro 3000) as (_ & _ & H).
  - vm_compute. split; [discriminate|reflexivity].
  - vm_compute. split; [discriminate|reflexivity].
  - vm_compute. reflexivity.
  - apply H. vm_compute. discriminate.
Defined.

(** ** The demonstration cycle (lines 76-89 and 95-149) *)

Lemma decisao_no_cenario (k : Z) :
  0 <= k < 6 -> fst (decisao (no_cenario k)) = bomba_no_cenario k.
Proof.
  intros H.
  assert (Hk : k = 0 \/ k = 1 \/ k = 2 \/ k = 3 \/ k = 4 \/ k = 5) by lia.
  destruct Hk as [Hk|[Hk|[Hk|[Hk|[Hk|Hk]]]]]; subst k;
    vm_compute; reflexivity.
Qed.

(** X2.  The scenarios rotate.  From a scenario index within 0..5, a pass
    that runs loads the sensor globals of that scenario and leaves the
    index at the next one modulo 6, so the index never leaves 0..5. *)
Theorem rotacao_dos_cenarios (e : Entradas) (s : Estado) :
  0 <= cenario_atual s < 6 ->
  intervalo_decorrido e s = true ->
  leitura_de (loop e s) = leitura_de (no_cenario (cenario_atual s))
  /\ cenario_atual (loop e s) = (cenario_atual s + 1) mod 6
  /\ 0 <= cenario_atual (loop e s) < 6.
Proof.
  intros Hc He.
  destruct (loop_globais e s He) as (_ & _ & Hn & Hl & _).
  destruct (simularCenario_dentro (inicio_do_ciclo e s) Hc) as [Hr _].
  assert (Hm : cenario_atual (loop e s) = (cenario_atual s + 1) mod 6).
  { rewrite Hn. apply Z.rem_mod_nonneg; lia. }
  split; [|split].
  - rewrite Hl. exact Hr.
  - exact Hm.
  - rewrite Hm. apply Z.mod_pos_bound. lia.
Qed.

Lemma rotacao_dos_cenarios_witness :
  cenario_atual
    (loop (entradas_demo 3000) (set_cenario_atual 5 (setup 0 estado_inicial)))
  = 0.
Proof.
  destruct (rotacao_dos_cenarios (entradas_demo 3000)
              (set_cenario_atual 5 (setup 0 estado_inicial)))
    as (_ & H & _).
  - vm_compute. split; [discriminate|reflexivity].
  - vm_compute. reflexivity.
  - exact H.
Defined.

(** X3.  What the demonstration does to the pump: a pass that runs in
    scenario 1, 2 or 3 (index 0..2) leaves the pump on, and one that runs
    in scenario 4, 5 or 6 leaves it off, with the relay pin at the same
    level; the pump flag left by the previous pass plays no part. *)
Theorem bomba_por_cenario (e : Entradas) (s : Estado) :
  0 <= cenario_atual s < 6 ->
  intervalo_decorrido e s = true ->
  bomba_ativa (loop e s) = bomba_no_cenario (cenario_atual s)
  /\ pinos (loop e s) !! PIN_RELE
     = Some (nivel_de (bomba_no_cenario (cenario_atual s))).
Proof.
  intros Hc He.
  destruct (loop_globais e s He) as (_ & _ & _ & _ & Hb & _ & Hp).
  destruct (simularCenario_dentro (inicio_do_ciclo e s) Hc) as [Hr _].
  assert (Hd : fst (decisao (leitura_do_ciclo e s))
               = bomba_no_cenario (cenario_atual s)).
  { unfold leitura_do_ciclo. rewrite (decisao_ext _ _ Hr).
    now apply decisao_no_cenario. }
  split.
  - now rewrite Hb.
  - rewrite Hp, Hd. unfold PIN_LED, PIN_RELE. apply lookup_insert_eq.
Qed.

Lemma bomba_por_cenario_witness :
  bomba_ativa
    (loop (entradas_demo 3000)
       (set_bomba_ativa true (set_cenario_atual 3 (setup 0 estado_inicial))))
  = false.
Proof.
  destruct (bomba_por_cenario (entradas_demo 3000)
              (set_bomba_ativa true
                 (set_cenario_atual 3 (setup 0 estado_inicial))))
    as [H _].
  - vm_compute. split; [discriminate|reflexivity].
  - vm_compute. reflexivity.
  - exact H.
Defined.



(** ** The sensor report (lines 151-177) *)


(** ** The rest of the decision table (lines 184-201) *)

(** A value above a positive threshold is not below a smaller one. *)
Lemma acima_nao_abaixo (x : F32.float) (m1 m2 : positive) (e1 e2 : Z) :
  e2 < e1 ->
  F32.gtb x (S754_finite false m1 e1) = true ->
  F32.ltb x (S754_finite false m2 e2) = false.
Proof.
  unfold F32.gtb, F32.ltb, SFltb. intros He.
  destruct x as [sx|sx| |sx mx ex]; simpl; try discriminate;
    try (destruct sx; simpl; congruence).
  destruct sx; [discriminate|].
  intros H.
  assert (Hg : (ex ?= e2) = Gt).
  { apply Z.compare_gt_iff.
    destruct (e1 ?= ex) eqn:E; try discriminate H.
    - apply Z.compare_eq in E. now rewrite <- E.
    - apply Z.compare_lt_iff in E. now apply Z.lt_trans with e1. }
  now rewrite Hg.
Qed.

Lemma ph_alto_nao_baixo (x : F32.float) :
  F32.gtb x LIMITE_PH_ALTO = true -> F32.ltb x LIMITE_PH_BAIXO = false.
Proof.
  rewrite LIMITE_PH_ALTO_val, LIMITE_PH_BAIXO_val.
  apply acima_nao_abaixo. lia.
Qed.

Lemma umidade_alta_nao_baixa (x : F32.float) :
  F32.gtb x LIMITE_UMIDADE_ALTA = true ->
  F32.ltb x LIMITE_UMIDADE_BAIXA = false.
Proof.
  rewrite LIMITE_UMIDADE_ALTA_val, LIMITE_UMIDADE_BAIXA_val.
  apply acima_nao_abaixo. lia.
Qed.

(** X6.  With both nutrients present a pH outside the ideal band blocks
    irrigation whatever the moisture is, dry soil included: below 6.0 the
    pump is off with the reason "pH too acidic", above 8.0 it is off with
    the reason "pH too alkaline". *)
Theorem ph_fora_da_faixa_bloqueia (s : Estado) :
  fosforo_presente s = true ->
  potassio_presente s = true ->
  (F32.ltb (valor_ph s) LIMITE_PH_BAIXO = true ->
   decisao s = (false, mensagem PH_TOO_ACIDIC s)
   /\ bomba_ativa (analisarDadosEControlarBomba s) = false)
  /\ (F32.gtb (valor_ph s) LIMITE_PH_ALTO = true ->
      decisao s = (false, mensagem PH_TOO_ALKALINE s)
      /\ bomba_ativa (analisarDadosEControlarBomba s) = false).
Proof.
  intros Hf Hk. rewrite analisar_bomba_ativa.
  rewrite (decisao_ambos_presentes s Hf Hk).
  split; intros H.
  - rewrite regra_ph_acido by exact H. now split.
  - rewrite regra_ph_alcalino; [now split| |exact H].
    now apply ph_alto_nao_baixo.
Qed.

Lemma ph_fora_da_faixa_bloqueia_witness :
  F32.ltb (umidade_solo s_alcalino_seco) LIMITE_UMIDADE_BAIXA = true
  /\ decisao s_alcalino_seco
     = (false, mensagem PH_TOO_ALKALINE s_alcalino_seco)
  /\ bomba_ativa (analisarDadosEControlarBomba s_alcalino_seco) = false.
Proof.
  split; [vm_compute; reflexivity|].
  destruct (ph_fora_da_faixa_bloqueia s_alcalino_seco) as [_ H];
    try reflexivity.
  apply H. vm_compute. reflexivity.
Defined.

(** X7.  With both nutrients present, moisture above 70.0 and pH within
    [6.0, 8.0], the pump is decided off with the reason "moisture high". *)
Theorem umidade_alta_desliga_bomba (s : Estado) :
  fosforo_presente s = true ->
  potassio_presente s = true ->
  F32.gtb (umidade_solo s) LIMITE_UMIDADE_ALTA = true ->
  F32.leb LIMITE_PH_BAIXO (valor_ph s) = true ->
  F32.leb (valor_ph s) LIMITE_PH_ALTO = true ->
  decisao s = (false, mensagem MOISTURE_HIGH s)
  /\ bomba_ativa (analisarDadosEControlarBomba s) = false.
Proof.
  intros Hf Hk Hu Hlo Hhi.
  assert (Hd : decisao s = (false, mensagem MOISTURE_HIGH s)).
  { rewrite decisao_ambos_presentes by assumption.
    rewrite regra_ph_ideal.
    - apply regra_umidade_alta; [|exact Hu].
      now apply umidade_alta_nao_baixa.
    - now apply leb_not_ltb.
    - now apply leb_not_gtb. }
  split; [exact Hd|]. rewrite analisar_bomba_ativa, Hd. reflexivity.
Qed.

Lemma umidade_alta_desliga_bomba_witness :
  bomba_ativa s_encharcado = true
  /\ decisao s_encharcado = (false, mensagem MOISTURE_HIGH s_encharcado)
  /\ bomba_ativa (analisarDadosEControlarBomba s_encharcado) = false.
Proof.
  split; [reflexivity|].
  apply (umidade_alta_desliga_bomba s_encharcado); vm_compute; reflexivity.
Defined.

(** ** The reason in the log (lines 186-212 and 233-234) *)

(** X8.  The seven messages start with seven different literal texts, so
    the reason of a decision can be read back from the characters of the
    message, whatever way the Arduino core formats the number inside it:
    decoding the rendered message of a reason gives that reason. *)
Theorem motivo_recuperavel_do_log (core : ArduinoCore) (c : ReasonCode)
    (s : Estado) :
  motivo_do_texto (render core (mensagem c s)) = Some c.
Proof. destruct c; vm_compute; reflexivity. Qed.

(** ** What holds from power-on, pass after pass *)

Lemma indices_app (l1 l2 : list Text) :
  indices (l1 ++ l2) = indices l1 ++ indices l2.
Proof. apply flat_map_app. Qed.

Lemma lerSensores_indices (e : Entradas) (s : Estado) :
  parcial (serial s) = [] ->
  parcial (serial (lerSensores e s)) = []
  /\ exists ls : list Text,
       linhas (serial (lerSensores e s)) = linhas (serial s) ++ ls
       /\ indices ls = [].
Proof.
  intros Hp. unfold lerSensores.
  destruct (negb (F32.isnan (umidade_dht e))); simpl; rewrite Hp;
    (split; [reflexivity|]); eexists;
    (split; [rewrite <- ?app_assoc; reflexivity|reflexivity]).
Qed.

Lemma analisar_indices (s : Estado) :
  parcial (serial s) = [] ->
  exists ls : list Text,
    linhas (serial (analisarDadosEControlarBomba s)) = linhas (serial s) ++ ls
    /\ indices ls = [].
Proof.
  intros Hp. unfold analisarDadosEControlarBomba.
  destruct (decisao s) as [b m]. simpl. rewrite Hp.
  eexists. split; [rewrite <- !app_assoc; reflexivity|reflexivity].
Qed.

(** A pass that runs adds exactly one record line, numbered by the
    incremented counter. *)
Lemma loop_indices (e : Entradas) (s : Estado) :
  0 <= cenario_atual s < 6 ->
  parcial (serial s) = [] ->
  intervalo_decorrido e s = true ->
  parcial (serial (loop e s)) = []
  /\ indices (linhas (serial (loop e s)))
     = indices (linhas (serial s)) ++ [ulong_succ (contador_medicoes s)].
Proof.
  intros Hc Hp He. rewrite (loop_decorrido e s He). cbv zeta.
  split; [reflexivity|].
  rewrite linhas_Serial_println, serial_set_cenario_atual.
  set (c := leitura_do_ciclo e s).
  destruct (simularCenario_dentro (inicio_do_ciclo e s) Hc)
    as (_ & l & Hl & Hs).
  fold (leitura_do_ciclo e s) in Hs. fold c in Hs.
  change (serial (inicio_do_ciclo e s)) with (serial s) in Hs.
  change (cenario_atual (inicio_do_ciclo e s)) with (cenario_atual s) in Hs.
  rewrite Hp in Hs.
  assert (Hpc : parcial (serial c) = []) by now rewrite Hs.
  destruct (lerSensores_indices e c Hpc) as (Hpl & ls1 & Hl1 & Hi1).
  destruct (analisar_indices (lerSensores e c) Hpl) as (ls2 & Hl2 & Hi2).
  destruct (exibirDadosCSV_linhas
              (analisarDadosEControlarBomba (lerSensores e c))
              (analisar_parcial _)) as [Hl3 Hp3].
  rewrite Hl3, Hp3, Hl2, Hl1, Hs. cbn [linhas].
  rewrite !indices_app, Hi1, Hi2.
  rewrite analisar_contador.
  destruct (lerSensores_globais e c) as (_ & Hn & _). rewrite Hn.
  unfold c, leitura_do_ciclo. rewrite simularCenario_contador.
  simpl. rewrite !app_nil_r. reflexivity.
Qed.

Lemma numeracao_S (n : nat) :
  numeracao (S n) = numeracao n ++ [ulong_succ (Z.of_nat n mod ULONG_MOD)].
Proof.
  unfold numeracao, ulong_succ. rewrite seq_S, map_app. simpl.
  rewrite Zplus_mod_idemp_l. do 3 f_equal. lia.
Qed.

Lemma setup_regular (agora : Z) : estado_regular (setup agora estado_inicial).
Proof.
  unfold estado_regular. split; [simpl; lia|].
  split; [reflexivity|].
  split; [|split].
  - simpl. unfold PIN_LED, PIN_RELE.
    now rewrite insert_insert_eq, insert_empty.
  - simpl. unfold PIN_LED, PIN_RELE.
    now rewrite insert_insert_eq, insert_empty.
  - exists 0%nat. split; reflexivity.
Qed.

Lemma loop_regular (e : Entradas) (s : Estado) :
  estado_regular s -> estado_regular (loop e s).
Proof.
  intros (Hc & Hp & Hm & Hpin & n & Hn & Hi).
  destruct (intervalo_decorrido e s) eqn:He;
    [|rewrite (loop_em_espera e s He);
      repeat (split; try assumption); now exists n].
  destruct (loop_globais e s He) as (_ & Hn' & Hc' & _ & Hb' & Hm' & Hp').
  destruct (loop_indices e s Hc Hp He) as [Hq Hi'].
  split; [|split; [exact Hq|split; [|split]]].
  - rewrite Hc', Z.rem_mod_nonneg by lia. apply Z.mod_pos_bound. lia.
  - now rewrite Hm'.
  - rewrite Hp', Hb', Hpin. unfold PIN_LED, PIN_RELE.
    now rewrite insert_insert_eq, insert_singleton_eq.
  - exists (S n). rewrite Hn', Hi', Hi, Hn, numeracao_S.
    split; [|reflexivity].
    unfold ulong_succ. rewrite Zplus_mod_idemp_l. f_equal. lia.
Qed.

Lemma executar_regular (agora : Z) (es : list Entradas) :
  estado_regular (executar agora es).
Proof.
  unfold executar.
  generalize (setup_regular agora).
  generalize (setup agora estado_inicial).
  induction es as [|e es IH]; intros s Hs; simpl.
  - exact Hs.
  - apply IH. now apply loop_regular.
Qed.

(** X9.  However many passes of [loop] follow [setup], and whatever the
    clock and the sensors give, the scenario index stays within 0..5, so
    the [switch] of [simularCenario] always finds its case, and no line of
    the serial output is left unterminated between two passes. *)
Theorem cenario_sempre_valido (agora : Z) (es : list Entradas) :
  0 <= cenario_atual (executar agora es) < 6
  /\ parcial (serial (executar agora es)) = [].
Proof.
  destruct (executar_regular agora es) as (Hc & Hp & _). now split.
Qed.


(** X11.  The record lines of a run are numbered without gap or repeat:
    read back from the serial output, their cycle numbers are 1, 2, ..., n
    (as a 32-bit counter shows them), where n is the number of
    measurements the counter holds. *)
Theorem registros_numerados (agora : Z) (es : list Entradas) :
  exists n : nat,
    indices (linhas (serial (executar agora es))) = numeracao n
    /\ contador_medicoes (executar agora es) = Z.of_nat n mod ULONG_MOD.
Proof.
  destruct (executar_regular agora es) as (_ & _ & _ & _ & n & Hn & Hi).
  exists n. now split.
Qed.

(** X12.  One record per measurement.  From a state with a valid scenario
    index and no unterminated line, a pass of [loop] adds exactly one
    record line, carrying the incremented counter, when the interval has
    elapsed, and prints nothing when it has not. *)
Theorem um_registro_por_passagem (e : Entradas) (s : Estado) :
  0 <= cenario_atual s < 6 ->
  parcial (serial s) = [] ->
  indices (linhas (serial (loop e s)))
  = indices (linhas (serial s))
      ++ (if intervalo_decorrido e s
          then [ulong_succ (contador_medicoes s)] else [])
  /\ (intervalo_decorrido e s = false -> serial (loop e s) = serial s).
Proof.
  intros Hc Hp. destruct (intervalo_decorrido e s) eqn:He.
  - destruct (loop_indices e s Hc Hp He) as [_ Hi]. split; [exact Hi|].
    discriminate.
  - rewrite (loop_em_espera e s He), app_nil_r. now split.
Qed.

Lemma um_registro_por_passagem_witness :
  indices
    (linhas (serial (loop (entradas_demo 2000) s_perto_do_estouro)))
  = [1]
  /\ indices
       (linhas (serial (loop (entradas_demo 1000) (setup 0 estado_inicial))))
     = [].
Proof.
  split.
  - destruct (um_registro_por_passagem (entradas_demo 2000)
                s_perto_do_estouro) as [H _].
    + vm_compute. split; [discriminate|reflexivity].
    + reflexivity.
    + exact H.
  - destruct (um_registro_por_passagem (entradas_demo 1000)
                (setup 0 estado_inicial)) as [H _].
    + vm_compute. split; [discriminate|reflexivity].
    + reflexivity.
    + exact H.
Defined.

Lemma indices_nil (ls : list Text) :
  indices ls = [] -> Forall (fun l => indice l = []) ls.
Proof.
  induction ls as [|l ls IH]; intros H; constructor;
    simpl in H; apply app_eq_nil in H; destruct H as [H1 H2].
  - exact H1.
  - now apply IH.
Qed.

(** The lines a pass that runs adds: some lines that are no records, the
    record of the scenario, and an empty line. *)
Lemma loop_linhas (e : Entradas) (s : Estado) :
  0 <= cenario_atual s < 6 ->
  parcial (serial s) = [] ->
  intervalo_decorrido e s = true ->
  exists ls : list Text,
    indices ls = []
    /\ linhas (serial (loop e s))
       = linhas (serial s) ++ ls
           ++ [registro_csv (ulong_succ (contador_medicoes s))
                 (leitura_de (no_cenario (cenario_atual s)))
                 (fst (decisao (no_cenario (cenario_atual s))));
               []].
Proof.
  intros Hc Hp He. rewrite (loop_decorrido e s He). cbv zeta.
  rewrite linhas_Serial_println, serial_set_cenario_atual.
  set (c := leitura_do_ciclo e s).
  destruct (simularCenario_dentro (inicio_do_ciclo e s) Hc)
    as (Hr & l & Hl & Hs).
  fold (leitura_do_ciclo e s) in Hs, Hr. fold c in Hs, Hr.
  change (serial (inicio_do_ciclo e s)) with (serial s) in Hs.
  change (cenario_atual (inicio_do_ciclo e s)) with (cenario_atual s)
    in Hs, Hr.
  rewrite Hp in Hs.
  assert (Hpc : parcial (serial c) = []) by now rewrite Hs.
  destruct (lerSensores_indices e c Hpc) as (Hpl & ls1 & Hl1 & Hi1).
  destruct (analisar_indices (lerSensores e c) Hpl) as (ls2 & Hl2 & Hi2).
  destruct (exibirDadosCSV_linhas
              (analisarDadosEControlarBomba (lerSensores e c))
              (analisar_parcial _)) as [Hl3 Hp3].
  destruct (lerSensores_globais e c) as (Hrl & Hn & _).
  rewrite Hl3, Hp3, Hl2, Hl1, Hs. cbn [linhas].
  rewrite analisar_contador, analisar_leitura, analisar_bomba_ativa.
  rewrite (decisao_ext _ _ Hrl), (decisao_ext _ _ Hr), Hrl, Hr, Hn.
  unfold c at 1, leitura_do_ciclo. rewrite simularCenario_contador.
  exists ([[] ++ txt ">>> CENÁRIO " ++ [PrintInt (cenario_atual s + 1)] ++ l]
            ++ ls1 ++ ls2).
  split.
  - rewrite !indices_app, Hi1, Hi2. reflexivity.
  - rewrite <- !app_assoc. reflexivity.
Qed.

Lemma loop_coerente (e : Entradas) (s : Estado) :
  estado_regular s ->
  Forall linha_coerente (linhas (serial s)) ->
  Forall linha_coerente (linhas (serial (loop e s))).
Proof.
  intros (Hc & Hp & _) Hf.
  destruct (intervalo_decorrido e s) eqn:He;
    [|now rewrite (loop_em_espera e s He)].
  destruct (loop_linhas e s Hc Hp He) as (ls & Hi & Hl). rewrite Hl.
  apply Forall_app. split; [exact Hf|].
  apply Forall_app. split.
  - apply indices_nil in Hi.
    eapply Forall_impl; [exact Hi|]. intros l Hl'. now left.
  - constructor; [|constructor; [now left|constructor]].
    right. exists (ulong_succ (contador_medicoes s)), (cenario_atual s).
    now split.
Qed.

(** X13.  Every record line a run prints is coherent with the policy: it
    shows the reading of one of the six scenarios and, as its pump field,
    the decision [analisarDadosEControlarBomba] takes on that very
    reading; no record mixes the reading of one cycle with the pump of
    another. *)
Theorem registros_coerentes (agora : Z) (es : list Entradas) :
  Forall linha_coerente (linhas (serial (executar agora es))).
Proof.
  unfold executar.
  assert (H0 : Forall linha_coerente
                 (linhas (serial (setup agora estado_inicial)))).
  { simpl. repeat constructor. }
  generalize (setup_regular agora) H0.
  generalize (setup agora estado_inicial).
  induction es as [|e es IH]; intros s Hs Hf; simpl.
  - exact Hf.
  - apply IH; [now apply loop_regular|now apply loop_coerente].
Qed.
